(** * satnogs_sstv_requester: fetch, download and curate SSTV images

    A shallow embedding of [satnogs_sstv_requester.py].  The script talks to
    three things outside itself: the file system ([os.makedirs], [open],
    [os.remove], [cv2.imread]), the network ([requests.get]) and the console
    ([print]).  The file system is an explicit state, the network and the
    image library are a fixed [platform], and every external call that
    completes is appended to a trace, so that "how many downloads" and
    "how many classifications" are statements about the trace. *)

From Stdlib Require Import ZArith QArith String Ascii List Bool Lia.
From stdpp Require Import base option list gmap strings.

Open Scope Z_scope.
Open Scope string_scope.

(** ** Values the script handles *)

Abbreviation bytes := (list Byte.byte).

(** The body of an API answer after [response.json()]: a Python object built
    from JSON.  A [JObj] is the parsed [dict], keys in insertion order. *)
#[local] Unset Elimination Schemes.
Inductive json : Type :=
| JNull
| JBool (b : bool)
| JInt (z : Z)
| JFloat (q : Q)
| JStr (s : string)
| JArr (items : list json)
| JObj (fields : list (string * json)).
#[local] Set Elimination Schemes.

(** A value of the [params] dict handed to [requests.get]. *)
Inductive pval : Type :=
| PInt (z : Z)
| PStr (s : string).

Abbreviation params := (list (string * pval)).

Record response : Type := Response {
  status_code : Z;
  content : bytes;
  json_body : option json
}.

(** Python exceptions the script can run into; none is caught. *)
Inductive exn : Type :=
| KeyError (key : string)
| TypeError
| AttributeError
| IndexError
| JSONDecodeError
| FileExistsError (path : string)
| FileNotFoundError (path : string)
| IsADirectoryError (path : string).

Inductive result (A : Type) : Type :=
| Ok (a : A)
| Raise (e : exn).
Arguments Ok {A} a.
Arguments Raise {A} e.

(** ** Console and trace *)

(** The eight [print] calls of the script, by line. *)
Inductive message : Type :=
| MsgDownloaded (save_path : string)                    (* line 25 *)
| MsgDownloadFailed (image_url : string) (status : Z)   (* line 28 *)
| MsgLoadError (image_path : string)                    (* line 37 *)
| MsgVariance (image_path : string) (laplacian_var : Q) (* line 42 *)
| MsgRetrieveFailed (status : Z)                        (* line 66 *)
| MsgProcessing (observation_id : json)                 (* line 73 *)
| MsgStatic (image_path : string)                       (* line 83 *)
| MsgContent (image_path : string).                     (* line 86 *)

(** One entry per external call that completed. *)
Inductive event : Type :=
| EMakedirs (dir : string)
| EGet (url : string) (query : params)
| EWrite (path : string) (data : bytes)
| EImread (path : string)
| ERemove (path : string)
| EPrint (m : message).

(** ** File system *)

(** Paths are the strings the script builds; an entry is a directory or a
    regular file with its bytes. *)
Inductive node : Type :=
| Dir
| File (data : bytes).

Abbreviation filesystem := (gmap string node).

(** ** The monad: file-system state, trace output, exceptions *)

Record outcome (A : Type) : Type := Outcome {
  out_fs : filesystem;
  out_trace : list event;
  out_res : result A
}.
Arguments Outcome {A} _ _ _.
Arguments out_fs {A} _.
Arguments out_trace {A} _.
Arguments out_res {A} _.

Definition M (A : Type) : Type := filesystem -> outcome A.

Definition ret {A} (a : A) : M A :=
  fun fs => Outcome fs [] (Ok a).

Definition raise {A} (e : exn) : M A :=
  fun fs => Outcome fs [] (Raise e).

Definition bind {A B} (m : M A) (k : A -> M B) : M B :=
  fun fs =>
    let o := m fs in
    match out_res o with
    | Ok a =>
        let o' := k a (out_fs o) in
        Outcome (out_fs o') (out_trace o ++ out_trace o') (out_res o')
    | Raise e => Outcome (out_fs o) (out_trace o) (Raise e)
    end.

Notation "x <- m ;; k" := (bind m (fun x => k))
  (at level 100, m at next level, right associativity).
Notation "m ;; k" := (bind m (fun _ => k))
  (at level 100, right associativity).

(** [for x in xs: body x]; an exception in the body leaves the loop. *)
Fixpoint for_each {A} (xs : list A) (body : A -> M unit) : M unit :=
  match xs with
  | [] => ret tt
  | x :: xs' => body x ;; for_each xs' body
  end.

Definition emit (e : event) : M unit :=
  fun fs => Outcome fs [e] (Ok tt).

Definition print (m : message) : M unit := emit (EPrint m).

(** ** Python built-ins used by the script *)

(** [s.split(sep)] for a one-character separator: never empty. *)
Fixpoint split (sep : ascii) (s : string) : list string :=
  match s with
  | EmptyString => [EmptyString]
  | String c s' =>
      if Ascii.eqb c sep then EmptyString :: split sep s'
      else match split sep s' with
           | [] => [String c EmptyString]
           | w :: ws => String c w :: ws
           end
  end.

(** [xs[-1]] *)
Definition index_last {A} (xs : list A) : M A :=
  match last xs with
  | Some x => ret x
  | None => raise IndexError
  end.

Fixpoint endswith (c : ascii) (s : string) : bool :=
  match s with
  | EmptyString => false
  | String x EmptyString => Ascii.eqb x c
  | String _ s' => endswith c s'
  end.

Definition startswith (c : ascii) (s : string) : bool :=
  match s with
  | EmptyString => false
  | String x _ => Ascii.eqb x c
  end.

(** [os.path.join(a, b)] of posixpath. *)
Definition os_path_join (a b : string) : string :=
  if startswith "/" b then b
  else if String.eqb a "" || endswith "/" a then a ++ b
  else a ++ "/" ++ b.

(** Lookup in a parsed dict. *)
Fixpoint dict_lookup (key : string) (fields : list (string * json)) : option json :=
  match fields with
  | [] => None
  | (k, v) :: rest => if String.eqb k key then Some v else dict_lookup key rest
  end.

(** [obj[key]] with a string key. *)
Definition subscript (obj : json) (key : string) : M json :=
  match obj with
  | JObj fields =>
      match dict_lookup key fields with
      | Some v => ret v
      | None => raise (KeyError key)
      end
  | _ => raise TypeError
  end.

(** [obj.get(key, default)]: only a dict has [get]. *)
Definition dict_get (obj : json) (key : string) (default : json) : M json :=
  match obj with
  | JObj fields =>
      match dict_lookup key fields with
      | Some v => ret v
      | None => ret default
      end
  | _ => raise AttributeError
  end.

Fixpoint chars (s : string) : list json :=
  match s with
  | EmptyString => []
  | String c s' => JStr (String c EmptyString) :: chars s'
  end.

(** What [for x in v] runs over: the items of a list, the keys of a dict,
    the characters of a string; anything else is not iterable. *)
Definition py_iter (v : json) : M (list json) :=
  match v with
  | JArr items => ret items
  | JObj fields => ret (map (fun kv => JStr (fst kv)) fields)
  | JStr s => ret (chars s)
  | _ => raise TypeError
  end.

(** Truth value of what [download_image] returns: [None] and the empty
    string are false. *)
Definition truthy (p : option string) : bool :=
  match p with
  | Some s => negb (String.eqb s "")
  | None => false
  end.

(** [params[key] = v] on the dict under construction. *)
Fixpoint dict_set (key : string) (v : pval) (d : params) : params :=
  match d with
  | [] => [(key, v)]
  | (k, w) :: rest =>
      if String.eqb k key then (k, v) :: rest else (k, w) :: dict_set key v rest
  end.

(** ** File-system calls *)

(** A path whose last component is empty, [.] or [..] names a directory. *)
Definition names_directory (path : string) : bool :=
  match last (split "/" path) with
  | Some name => String.eqb name "" || String.eqb name "." || String.eqb name ".."
  | None => true
  end.

Definition is_directory (fs : filesystem) (path : string) : bool :=
  match fs !! path with
  | Some Dir => true
  | _ => names_directory path
  end.

(** [os.makedirs(dir, exist_ok=True)] *)
Definition os_makedirs (dir : string) : M unit :=
  fun fs =>
    match fs !! dir with
    | Some (File _) => Outcome fs [] (Raise (FileExistsError dir))
    | _ => Outcome (<[dir := Dir]> fs) [EMakedirs dir] (Ok tt)
    end.

(** [with open(path, "wb") as f: f.write(data)] *)
Definition write_file (path : string) (data : bytes) : M unit :=
  fun fs =>
    if is_directory fs path
    then Outcome fs [] (Raise (IsADirectoryError path))
    else Outcome (<[path := File data]> fs) [EWrite path data] (Ok tt).

(** [os.remove(path)] *)
Definition os_remove (path : string) : M unit :=
  fun fs =>
    match fs !! path with
    | Some (File _) => Outcome (delete path fs) [ERemove path] (Ok tt)
    | Some Dir => Outcome fs [] (Raise (IsADirectoryError path))
    | None => Outcome fs [] (Raise (FileNotFoundError path))
    end.

(** ** The platform: network and image library *)

(** What the script cannot decide itself.  The server answers every GET
    (a request that raises, for want of a route or of a well-formed URL, is
    outside the model) and answers the same request the same way during a
    run.  A Laplacian variance is a finite float and is read as the rational
    number it denotes; Python compares it exactly with the integer
    threshold. *)
Record platform : Type := Platform {
  (** a decoded grayscale image *)
  image : Type;
  (** the decoder behind [cv2.imread(_, cv2.IMREAD_GRAYSCALE)] *)
  imdecode : bytes -> option image;
  (** [cv2.Laplacian(img, cv2.CV_64F).var()] *)
  laplacian_variance : image -> Q;
  (** the answer of the server to a GET *)
  http : string -> params -> response;
  (** [datetime.datetime] and its [isoformat()] *)
  datetime : Type;
  isoformat : datetime -> string
}.

Section Script.

Variable P : platform.

(** [requests.get(url, params=query)] *)
Definition requests_get (url : string) (query : params) : M response :=
  fun fs => Outcome fs [EGet url query] (Ok (http P url query)).

(** [cv2.imread(path, cv2.IMREAD_GRAYSCALE)]: [None] when there is no such
    file or its bytes are not an image. *)
Definition cv2_imread (path : string) : M (option (image P)) :=
  fun fs =>
    Outcome fs [EImread path]
      (Ok match fs !! path with
          | Some (File data) => imdecode P data
          | _ => None
          end).

(** [response.json()] *)
Definition response_json (r : response) : M json :=
  match json_body r with
  | Some v => ret v
  | None => raise JSONDecodeError
  end.

(** ** The script *)

Definition API_URL : string := "https://network.satnogs.org/api/observations/".

(** Lines 14-29. *)
Definition download_image (image_url : json) (save_dir : string) : M (option string) :=
  os_makedirs save_dir ;;
  match image_url with
  | JStr url =>
      image_name <- index_last (split "/" url) ;;
      let save_path := os_path_join save_dir image_name in
      response <- requests_get url [] ;;
      if Z.eqb (status_code response) 200 then
        write_file save_path (content response) ;;
        print (MsgDownloaded save_path) ;;
        ret (Some save_path)
      else
        print (MsgDownloadFailed url (status_code response)) ;;
        ret None
  | _ => raise AttributeError
  end.

(** Lines 32-44.  The last line is [return laplacian_var > threshold]. *)
Definition is_static_image (image_path : string) (threshold : Q) : M bool :=
  img <- cv2_imread image_path ;;
  match img with
  | None =>
      print (MsgLoadError image_path) ;;
      ret true
  | Some img =>
      let laplacian_var := laplacian_variance P img in
      print (MsgVariance image_path laplacian_var) ;;
      ret (negb (Qle_bool laplacian_var threshold))
  end.

Definition default_save_dir : string := "satnogs_images".
Definition default_threshold : Q := inject_Z 20000.

(** Lines 82-86: the two branches taken on a downloaded image. *)
Definition curate (image_path : string) : M unit :=
  static <- is_static_image image_path default_threshold ;;
  if static : bool then
    print (MsgStatic image_path) ;;
    os_remove image_path
  else
    print (MsgContent image_path).

(** Lines 78-86: the body of the inner loop. *)
Definition process_payload (data : json) : M unit :=
  image_url <- subscript data "payload_demod" ;;
  image_path <- download_image image_url default_save_dir ;;
  if truthy image_path then
    match image_path with
    | Some p => curate p
    | None => ret tt
    end
  else ret tt.

(** Lines 72-86: the body of the outer loop. *)
Definition process_observation (obs : json) : M unit :=
  observation_id <- subscript obs "id" ;;
  print (MsgProcessing observation_id) ;;
  decoded_data <- dict_get obs "demoddata" (JArr []) ;;
  payloads <- py_iter decoded_data ;;
  for_each payloads process_payload.

(** Lines 49-61: the [params] dict of the query. *)
Definition query_params (station_id satellite_id : Z)
    (start_date end_date : option (datetime P)) (limit : Z) : params :=
  let query : params :=
    [ ("norad_cat_id", PInt satellite_id);
      ("ground_station", PInt station_id);
      ("status", PStr "good");
      ("limit", PInt limit);
      ("transmitter_mode", PStr "SSTV") ] in
  let query :=
    match start_date with
    | Some d => dict_set "start" (PStr (isoformat P d)) query
    | None => query
    end in
  match end_date with
  | Some d => dict_set "end" (PStr (isoformat P d)) query
  | None => query
  end.

(** Lines 47-86. *)
Definition get_sstv_images (station_id satellite_id : Z)
    (start_date end_date : option (datetime P)) (limit : Z) : M unit :=
  let query := query_params station_id satellite_id start_date end_date limit in
  response <- requests_get API_URL query ;;
  if negb (Z.eqb (status_code response) 200) then
    print (MsgRetrieveFailed (status_code response)) ;;
    ret tt
  else
    observations <- response_json response ;;
    obs_list <- py_iter observations ;;
    for_each obs_list process_observation.

End Script.

(** * Vocabulary of the statements *)

(** ** Paths and files *)

(** [c in s] *)
Fixpoint has_char (c : ascii) (s : string) : bool :=
  match s with
  | EmptyString => false
  | String x s' => Ascii.eqb x c || has_char c s'
  end.

(** Lines 18-19 on a URL: where [download_image] saves it. *)
Definition saved_as (url : string) : string :=
  os_path_join default_save_dir (default "" (last (split "/" url))).

(** A regular file is at [path]. *)
Definition is_file (fs : filesystem) (path : string) : Prop :=
  exists data, fs !! path = Some (File data).

(** The working directory can be made: no regular file has its name. *)
Definition workdir_free (fs : filesystem) : Prop :=
  forall data, fs !! default_save_dir <> Some (File data).

(** The console line of [is_static_image]: lines 37 and 42. *)
Definition score_report (m : message) : bool :=
  match m with
  | MsgLoadError _ | MsgVariance _ _ => true
  | _ => false
  end.

(** A payload record as the API sends it. *)
Definition payload_of (data : json) (url : string) : Prop :=
  exists fields, data = JObj fields /\
                 dict_lookup "payload_demod" fields = Some (JStr url).

(** ** A small world to run the script in *)

(** A server with four observations and four images, and an image library
    that reads the variance off the first byte of a file. *)
Module Demo.

Definition decode (data : bytes) : option Z :=
  match data with
  | [] => None
  | b :: _ => Some (19990 + Z.of_N (Byte.to_N b))
  end.

Definition url_a : string := "https://network.satnogs.org/media/1/a.png".
Definition url_b : string := "https://network.satnogs.org/media/1/b.png".
Definition url_c : string := "https://network.satnogs.org/media/1/c.png".
Definition url_a' : string := "https://network.satnogs.org/media/2/a.png".

Definition payload (url : string) : json :=
  JObj [("payload_demod", JStr url)].

Definition observations : json :=
  JArr [ JObj [("id", JInt 1); ("demoddata", JArr [payload url_a; payload url_b; payload url_c])];
         JObj [("id", JInt 2); ("demoddata", JArr [])];
         JObj [("id", JInt 3)];
         JObj [("id", JInt 4); ("demoddata", JArr [payload url_a'])] ].

(** [a.png] scores 20000, [c.png] scores 20001, [b.png] is missing and the
    second [a.png] is not an image. *)
Definition serve (api_status : Z) (url : string) (query : params) : response :=
  if String.eqb url API_URL then Response api_status [] (Some observations)
  else if String.eqb url url_a then Response 200 [Byte.x0a] None
  else if String.eqb url url_c then Response 200 [Byte.x0b] None
  else if String.eqb url url_a' then Response 200 [] None
  else Response 404 [] None.

Definition world (api_status : Z) : platform :=
  {| image := Z;
     imdecode := decode;
     laplacian_variance := inject_Z;
     http := serve api_status;
     datetime := string;
     isoformat := fun d => d ++ "T00:00:00" |}.

Definition up : platform := world 200.
Definition down : platform := world 503.

(** The query of the main block. *)
Definition query : params :=
  [ ("norad_cat_id", PInt 25544); ("ground_station", PInt 2433);
    ("status", PStr "good"); ("limit", PInt 10);
    ("transmitter_mode", PStr "SSTV");
    ("start", PStr "2024-10-01T00:00:00"); ("end", PStr "2024-10-17T00:00:00") ].

(** Lines 91-107: the run of the main block, dates already parsed. *)
Definition run (api_status : Z) : M unit :=
  get_sstv_images (world api_status) 2433 25544
    (Some "2024-10-01") (Some "2024-10-17") 10.

End Demo.

(** A server that gives one and the same answer to every request, and an
    image library that decodes nothing. *)
Module Replies.

Definition always (r : response) : platform :=
  {| image := unit;
     imdecode := fun _ => None;
     laplacian_variance := fun _ => inject_Z 0;
     http := fun _ _ => r;
     datetime := unit;
     isoformat := fun _ => "" |}.

End Replies.

(** ** Reading a trace *)

(** The events in the life of a downloaded image: written, read back for
    classification, then removed or announced as kept. *)
Definition is_saved (e : event) : bool :=
  match e with EWrite _ _ => true | _ => false end.

Definition is_classified (e : event) : bool :=
  match e with EImread _ => true | _ => false end.

Definition is_removed (e : event) : bool :=
  match e with ERemove _ => true | _ => false end.

Definition is_kept (e : event) : bool :=
  match e with EPrint (MsgContent _) => true | _ => false end.

(** A GET without query parameters, as line 21 sends for an image. *)
Definition is_download (e : event) : bool :=
  match e with EGet _ [] => true | _ => false end.

(** The report of line 28. *)
Definition is_download_failure (e : event) : bool :=
  match e with EPrint (MsgDownloadFailed _ _) => true | _ => false end.

Definition is_life_event (e : event) : bool :=
  is_saved e || is_classified e || is_removed e || is_kept e.

Definition life (t : list event) : list event := List.filter is_life_event t.

Definition count (f : event -> bool) (t : list event) : nat :=
  List.length (List.filter f t).

(** Every saved image is classified at once and then disposed of, once. *)
Inductive curated_once : list event -> Prop :=
| curated_nil : curated_once []
| curated_removed (path : string) (data : bytes) (rest : list event) :
    curated_once rest ->
    curated_once (EWrite path data :: EImread path :: ERemove path :: rest)
| curated_kept (path : string) (data : bytes) (rest : list event) :
    curated_once rest ->
    curated_once
      (EWrite path data :: EImread path :: EPrint (MsgContent path) :: rest).

(** The file system once the working directory is made. *)
Definition made (fs : filesystem) : filesystem := <[default_save_dir := Dir]> fs.

(** The server has the image. *)
Definition served (P : platform) (url : string) : bool :=
  Z.eqb (status_code (http P url [])) 200.

(** ** Where the script may write *)

(** A path inside the working directory: one more component, which is a
    file name. *)
Definition confined (path : string) : Prop :=
  exists name,
    path = "satnogs_images/" ++ name /\ has_char "/" name = false /\
    name <> "" /\ name <> "." /\ name <> "..".

(** A file-system event that stays with the working directory. *)
Definition stays_inside (e : event) : Prop :=
  match e with
  | EMakedirs dir => dir = default_save_dir
  | EWrite path _ | EImread path | ERemove path => confined path
  | _ => True
  end.

(** A path the script has no business with: neither the working directory
    nor anything whose name starts with it and a slash. *)
Definition outside (path : string) : Prop :=
  path <> default_save_dir /\ forall name, path <> "satnogs_images/" ++ name.

(** What a payload step may leave in the trace when it saves nothing. *)
Definition is_quiet (e : event) : Prop :=
  match e with
  | EMakedirs dir => dir = default_save_dir
  | EGet _ [] => True
  | EPrint (MsgDownloadFailed _ _) => True
  | _ => False
  end.

(** What the loop over payloads needs of the file system: the working
    directory can be made and the images the server has can be saved. *)
Definition ready (P : platform) (urls : list string) (fs : filesystem) : Prop :=
  workdir_free fs /\
  forall url, In url urls -> served P url = true ->
              is_directory (made fs) (saved_as url) = false.

(** The line of line 73, one per observation. *)
Definition is_processing (e : event) : bool :=
  match e with EPrint (MsgProcessing _) => true | _ => false end.

(** A GET that carries query parameters: the request for the list. *)
Definition is_listing (e : event) : bool :=
  match e with
  | EGet _ [] => false
  | EGet _ _ => true
  | _ => false
  end.

(** An observation record as the API sends it: an identifier and, under
    [demoddata], a list of payload records, or no such field. *)
Definition record_of (obs : json) (urls : list string) : Prop :=
  exists fields observation_id,
    obs = JObj fields /\
    dict_lookup "id" fields = Some observation_id /\
    ((exists payloads,
        dict_lookup "demoddata" fields = Some (JArr payloads) /\
        Forall2 payload_of payloads urls) \/
     (dict_lookup "demoddata" fields = None /\ urls = [])).

(** A computation keeps an invariant of the file system and leaves a trace
    with a given property, however it ends. *)
Definition keeps (Inv : filesystem -> Prop) (Good : list event -> Prop)
    {A} (m : M A) : Prop :=
  forall fs, Inv fs -> Inv (out_fs (m fs)) /\ Good (out_trace (m fs)).

(** Lines 65-86: what [get_sstv_images] does with the answer to its
    request. *)
Definition handle_response (P : platform) (response : response) : M unit :=
  if negb (Z.eqb (status_code response) 200) then
    print (MsgRetrieveFailed (status_code response)) ;;
    ret tt
  else
    observations <- response_json response ;;
    obs_list <- py_iter observations ;;
    for_each obs_list (process_observation P).

(** [params.get(key)] on the finished query. *)
Fixpoint params_lookup (key : string) (d : params) : option pval :=
  match d with
  | [] => None
  | (k, v) :: rest => if String.eqb k key then Some v else params_lookup key rest
  end.

(** * Properties *)

(** ** Strings and paths *)

Lemma split_no_sep (sep : ascii) (s : string) :
  has_char sep s = false -> split sep s = [s].
Proof.
  induction s as [|c s IH]; simpl; [reflexivity|].
  destruct (Ascii.eqb c sep); simpl; [discriminate|].
  intros Hs. rewrite (IH Hs). reflexivity.
Qed.

Lemma split_has_sep (sep : ascii) (s : string) :
  has_char sep s = true -> exists w w' ws, split sep s = w :: w' :: ws.
Proof.
  induction s as [|c s IH]; simpl; [discriminate|].
  destruct (Ascii.eqb c sep); simpl.
  - intros _. destruct (has_char sep s) eqn:E.
    + destruct (IH eq_refl) as (w & w' & ws & ->). eauto.
    + rewrite (split_no_sep _ _ E). eauto.
  - intros Hs. destruct (IH Hs) as (w & w' & ws & ->). eauto.
Qed.

(** What [url.split("/")[-1]] is: a piece without separator, which is the
    whole string or what follows its last separator. *)
Lemma split_last_spec (sep : ascii) (s name : string) :
  last (split sep s) = Some name ->
  has_char sep name = false /\
  (s = name \/ exists pre, s = pre ++ String sep name).
Proof.
  revert name. induction s as [|c s IH]; intros name; simpl.
  - intros [= <-]. split; [reflexivity | now left].
  - destruct (has_char sep s) eqn:Es.
    + destruct (split_has_sep _ _ Es) as (w & w' & ws & Hs).
      rewrite Hs in *.
      assert (Hl : last (split sep (String c s)) = last (w :: w' :: ws)).
      { simpl. rewrite Hs. destruct (Ascii.eqb c sep); reflexivity. }
      simpl in Hl. rewrite Hs in Hl. rewrite Hl. intros H.
      destruct (IH _ H) as [Hn [->|[pre ->]]].
      * rewrite Hn in Es. discriminate.
      * split; [exact Hn|]. right. exists (String c pre). reflexivity.
    + rewrite (split_no_sep _ _ Es). destruct (Ascii.eqb c sep) eqn:Ec.
      * apply Ascii.eqb_eq in Ec. subst c. simpl. intros [= <-].
        split; [exact Es|]. right. exists "". reflexivity.
      * simpl. intros [= <-]. simpl. rewrite Ec, Es. split; [reflexivity | now left].
Qed.

Lemma split_last_some (sep : ascii) (s : string) :
  exists name, last (split sep s) = Some name.
Proof.
  destruct (has_char sep s) eqn:Es.
  - destruct (split_has_sep _ _ Es) as (w & w' & ws & ->).
    destruct (last (w :: w' :: ws)) as [name|] eqn:E; [eauto|].
    apply last_None in E. discriminate.
  - rewrite (split_no_sep _ _ Es). simpl. eauto.
Qed.

Lemma startswith_no_char (c : ascii) (s : string) :
  has_char c s = false -> startswith c s = false.
Proof.
  destruct s as [|x s]; simpl; [reflexivity|].
  destruct (Ascii.eqb x c); [discriminate | reflexivity].
Qed.

Lemma saved_as_eq (url name : string) :
  last (split "/" url) = Some name ->
  saved_as url = "satnogs_images/" ++ name.
Proof.
  intros H. unfold saved_as. rewrite H. simpl.
  destruct (split_last_spec _ _ _ H) as [Hn _].
  unfold os_path_join. rewrite (startswith_no_char _ _ Hn). reflexivity.
Qed.

Lemma saved_as_inside (url : string) :
  exists name, last (split "/" url) = Some name /\
               saved_as url = "satnogs_images/" ++ name.
Proof.
  destruct (split_last_some "/" url) as [name H].
  exists name. split; [exact H | now apply saved_as_eq].
Qed.

Lemma saved_as_not_dir (url : string) : saved_as url <> default_save_dir.
Proof.
  destruct (saved_as_inside url) as (name & _ & ->).
  unfold default_save_dir. intros H.
  apply (f_equal String.length) in H. simpl in H.
  repeat (injection H as H). discriminate.
Qed.

Lemma saved_as_nonempty (url : string) : truthy (Some (saved_as url)) = true.
Proof.
  destruct (saved_as_inside url) as (name & _ & ->). reflexivity.
Qed.

(** ** The calls, one by one *)

Lemma os_makedirs_ok (fs : filesystem) :
  workdir_free fs ->
  os_makedirs default_save_dir fs =
    Outcome (<[default_save_dir := Dir]> fs) [EMakedirs default_save_dir] (Ok tt).
Proof.
  intros Hfree. unfold os_makedirs.
  destruct (fs !! default_save_dir) as [[|data]|] eqn:E; try reflexivity.
  destruct (Hfree data E).
Qed.

Lemma workdir_free_made (fs : filesystem) :
  workdir_free (<[default_save_dir := Dir]> fs).
Proof. intros data. rewrite lookup_insert_eq. discriminate. Qed.

Section Calls.

Variable P : platform.

(** [download_image] on a URL string, by cases on the status and on whether
    the save path can be opened for writing. *)
Lemma download_image_cases (url : string) (fs : filesystem) :
  workdir_free fs ->
  let fs1 := <[default_save_dir := Dir]> fs in
  let r := http P url [] in
  download_image P (JStr url) default_save_dir fs =
    if Z.eqb (status_code r) 200 then
      if is_directory fs1 (saved_as url) then
        Outcome fs1 [EMakedirs default_save_dir; EGet url []]
          (Raise (IsADirectoryError (saved_as url)))
      else
        Outcome (<[saved_as url := File (content r)]> fs1)
          [EMakedirs default_save_dir; EGet url [];
           EWrite (saved_as url) (content r);
           EPrint (MsgDownloaded (saved_as url))]
          (Ok (Some (saved_as url)))
    else
      Outcome fs1
        [EMakedirs default_save_dir; EGet url [];
         EPrint (MsgDownloadFailed url (status_code r))]
        (Ok None).
Proof.
  intros Hfree fs1 r. unfold download_image, bind.
  rewrite (os_makedirs_ok fs Hfree). cbn [out_res out_fs out_trace].
  destruct (split_last_some "/" url) as [name Hn].
  unfold saved_as, index_last. rewrite Hn.
  unfold requests_get, ret, print, emit, write_file.
  cbn -[os_path_join is_directory default_save_dir]. fold r. fold fs1.
  destruct (Z.eqb (status_code r) 200); [|reflexivity].
  cbn -[os_path_join is_directory default_save_dir].
  destruct (is_directory fs1 (os_path_join default_save_dir name)); reflexivity.
Qed.

(** A regular file has the name of the working directory: [os.makedirs]
    raises and nothing else happens. *)
Lemma download_image_blocked (image_url : json) (fs : filesystem) (blocker : bytes) :
  fs !! default_save_dir = Some (File blocker) ->
  download_image P image_url default_save_dir fs =
    Outcome fs [] (Raise (FileExistsError default_save_dir)).
Proof.
  intros Hdir. unfold download_image, bind, os_makedirs. rewrite Hdir. reflexivity.
Qed.

(** The payload reference is not a string: [split] is missing. *)
Lemma download_image_not_str (image_url : json) (fs : filesystem) :
  workdir_free fs ->
  (forall url, image_url <> JStr url) ->
  download_image P image_url default_save_dir fs =
    Outcome (<[default_save_dir := Dir]> fs) [EMakedirs default_save_dir]
      (Raise AttributeError).
Proof.
  intros Hfree Hns. unfold download_image, bind.
  rewrite (os_makedirs_ok fs Hfree). cbn [out_res out_fs out_trace].
  destruct image_url; try reflexivity. destruct (Hns s eq_refl).
Qed.

(** [is_static_image] on a path, by cases on what [cv2.imread] gives. *)
Lemma is_static_image_cases (path : string) (threshold : Q) (fs : filesystem) :
  is_static_image P path threshold fs =
    match fs !! path with
    | Some (File data) =>
        match imdecode P data with
        | Some img =>
            Outcome fs
              [EImread path; EPrint (MsgVariance path (laplacian_variance P img))]
              (Ok (negb (Qle_bool (laplacian_variance P img) threshold)))
        | None => Outcome fs [EImread path; EPrint (MsgLoadError path)] (Ok true)
        end
    | _ => Outcome fs [EImread path; EPrint (MsgLoadError path)] (Ok true)
    end.
Proof.
  unfold is_static_image, bind, cv2_imread. cbn [out_res out_fs out_trace].
  destruct (fs !! path) as [[|data]|]; try reflexivity.
  destruct (imdecode P data); reflexivity.
Qed.

(** The outcome of [is_static_image] never touches the file system and
    never raises: one read, one line on the console. *)
Lemma is_static_image_total (path : string) (threshold : Q) (fs : filesystem) :
  exists static m,
    is_static_image P path threshold fs =
      Outcome fs [EImread path; EPrint m] (Ok static) /\
    score_report m = true.
Proof.
  rewrite is_static_image_cases.
  destruct (fs !! path) as [[|data]|]; [| destruct (imdecode P data) |];
    eexists _, _; (split; reflexivity).
Qed.

(** [curate] on a regular file: the file goes exactly when the image is
    classified static. *)
Lemma curate_cases (path : string) (data : bytes) (fs : filesystem) :
  fs !! path = Some (File data) ->
  exists static m,
    is_static_image P path default_threshold fs =
      Outcome fs [EImread path; EPrint m] (Ok static) /\
    score_report m = true /\
    curate P path fs =
      if static
      then Outcome (delete path fs)
             [EImread path; EPrint m; EPrint (MsgStatic path); ERemove path] (Ok tt)
      else Outcome fs
             [EImread path; EPrint m; EPrint (MsgContent path)] (Ok tt).
Proof.
  intros Hfile.
  destruct (is_static_image_total path default_threshold fs) as (static & m & Hs & Hm).
  exists static, m. split; [exact Hs|]. split; [exact Hm|].
  unfold curate, bind. rewrite Hs. cbn [out_res out_fs out_trace].
  destruct static.
  - unfold print, emit, os_remove. cbn [out_res out_fs out_trace].
    rewrite Hfile. reflexivity.
  - unfold print, emit. cbn [out_res out_fs out_trace]. reflexivity.
Qed.

End Calls.

(** ** One payload *)

Section Payload.

Variable P : platform.

(** The download fails: nothing but the directory, the request and the
    report. *)
Lemma process_payload_failed (data : json) (url : string) (fs : filesystem) :
  payload_of data url ->
  workdir_free fs ->
  status_code (http P url []) <> 200 ->
  process_payload P data fs =
    Outcome (<[default_save_dir := Dir]> fs)
      [EMakedirs default_save_dir; EGet url [];
       EPrint (MsgDownloadFailed url (status_code (http P url [])))]
      (Ok tt).
Proof.
  intros (fields & -> & Hurl) Hfree Hst.
  unfold process_payload, bind, subscript. rewrite Hurl.
  cbn [ret out_res out_fs out_trace].
  rewrite (download_image_cases P url fs Hfree).
  apply Z.eqb_neq in Hst. rewrite Hst. reflexivity.
Qed.

(** The download succeeds and the file is written: it is classified once,
    then removed or kept. *)
Lemma process_payload_saved (data : json) (url : string) (fs : filesystem) :
  payload_of data url ->
  workdir_free fs ->
  status_code (http P url []) = 200 ->
  is_directory (<[default_save_dir := Dir]> fs) (saved_as url) = false ->
  let body := content (http P url []) in
  let fs2 := <[saved_as url := File body]> (<[default_save_dir := Dir]> fs) in
  exists static m,
    is_static_image P (saved_as url) default_threshold fs2 =
      Outcome fs2 [EImread (saved_as url); EPrint m] (Ok static) /\
    score_report m = true /\
    process_payload P data fs =
      Outcome (if static then delete (saved_as url) fs2 else fs2)
        ([EMakedirs default_save_dir; EGet url [];
          EWrite (saved_as url) body; EPrint (MsgDownloaded (saved_as url));
          EImread (saved_as url); EPrint m] ++
         (if static
          then [EPrint (MsgStatic (saved_as url)); ERemove (saved_as url)]
          else [EPrint (MsgContent (saved_as url))]))
        (Ok tt).
Proof.
  intros (fields & -> & Hurl) Hfree Hst Hdir body fs2.
  assert (Hfile : fs2 !! saved_as url = Some (File body))
    by apply lookup_insert_eq.
  destruct (curate_cases P _ _ _ Hfile) as (static & m & Hs & Hm & Hc).
  exists static, m. split; [exact Hs|]. split; [exact Hm|].
  unfold process_payload, bind, subscript. rewrite Hurl.
  cbn [ret out_res out_fs out_trace].
  rewrite (download_image_cases P url fs Hfree).
  apply Z.eqb_eq in Hst. rewrite Hst, Hdir.
  cbn [out_res out_fs out_trace]. rewrite saved_as_nonempty.
  fold body. fold fs2. rewrite Hc. destruct static; reflexivity.
Qed.

(** The download succeeds but the save path names a directory: [open]
    raises before anything is written. *)
Lemma process_payload_unwritable (data : json) (url : string) (fs : filesystem) :
  payload_of data url ->
  workdir_free fs ->
  status_code (http P url []) = 200 ->
  is_directory (<[default_save_dir := Dir]> fs) (saved_as url) = true ->
  process_payload P data fs =
    Outcome (<[default_save_dir := Dir]> fs)
      [EMakedirs default_save_dir; EGet url []]
      (Raise (IsADirectoryError (saved_as url))).
Proof.
  intros (fields & -> & Hurl) Hfree Hst Hdir.
  unfold process_payload, bind, subscript. rewrite Hurl.
  cbn [ret out_res out_fs out_trace].
  rewrite (download_image_cases P url fs Hfree).
  apply Z.eqb_eq in Hst. rewrite Hst, Hdir. reflexivity.
Qed.

(** Whatever the payload and the file system, the step writes nothing, or
    writes one file and reads it back. *)
Lemma process_payload_shape (data : json) (fs : filesystem) :
  (exists t, out_trace (process_payload P data fs) = t /\
             Forall (fun e => match e with
                              | EMakedirs _ | EGet _ _
                              | EPrint (MsgDownloadFailed _ _) => True
                              | _ => False
                              end) t) \/
  (exists url, payload_of data url /\ workdir_free fs /\
               status_code (http P url []) = 200 /\
               is_directory (<[default_save_dir := Dir]> fs) (saved_as url) = false).
Proof.
  destruct data as [| | | | |items|fields];
    try (left; eexists; split; [reflexivity | constructor]).
  destruct (dict_lookup "payload_demod" fields) as [image_url|] eqn:Hurl.
  2:{ left. eexists. split; [reflexivity|].
      unfold process_payload, bind, subscript. rewrite Hurl. constructor. }
  destruct (fs !! default_save_dir) as [[|blocker]|] eqn:Hdir.
  2:{ left. eexists. split; [reflexivity|].
      unfold process_payload, bind, subscript. rewrite Hurl.
      cbn [ret out_res out_fs out_trace].
      rewrite (download_image_blocked P _ _ _ Hdir). constructor. }
  all: assert (Hfree : workdir_free fs) by (intros d; rewrite Hdir; discriminate).
  all: destruct image_url as [| | | |url| |];
    try (left; eexists; split; [reflexivity|];
         unfold process_payload, bind, subscript;
         rewrite Hurl; cbn [ret out_res out_fs out_trace];
         rewrite (download_image_not_str P _ _ Hfree) by discriminate;
         repeat constructor).
  all: assert (Hp : payload_of (JObj fields) url) by (exists fields; split; auto).
  all: destruct (Z.eq_dec (status_code (http P url [])) 200) as [Hst|Hst];
    [ destruct (is_directory (<[default_save_dir := Dir]> fs) (saved_as url)) eqn:Hd;
      [ left; eexists; split; [reflexivity|];
        rewrite (process_payload_unwritable _ _ _ Hp Hfree Hst Hd);
        repeat constructor
      | right; exists url; auto ]
    | left; eexists; split; [reflexivity|];
      rewrite (process_payload_failed _ _ _ Hp Hfree Hst); repeat constructor ].
Qed.

End Payload.

(** ** Classification: [is_static_image] and the two branches after it *)

(** On an image that decodes, the answer is the comparison of line 44:
    static exactly when the variance is strictly above the threshold. *)
Lemma is_static_image_decoded (P : platform) (path : string) (data : bytes)
    (img : image P) (threshold : Q) (fs : filesystem) :
  fs !! path = Some (File data) ->
  imdecode P data = Some img ->
  out_res (is_static_image P path threshold fs) = Ok true <->
  (threshold < laplacian_variance P img)%Q.
Proof.
  intros Hfile Himg. rewrite is_static_image_cases, Hfile, Himg.
  cbn [out_res]. split.
  - intros [= H]. apply negb_true_iff in H.
    apply Qnot_le_lt. intros Hle. apply Qle_bool_iff in Hle. congruence.
  - intros Hlt. f_equal. apply negb_true_iff.
    destruct (Qle_bool (laplacian_variance P img) threshold) eqn:E; [|reflexivity].
    apply Qle_bool_iff in E. exfalso. exact (Qlt_not_le _ _ Hlt E).
Qed.

(** C1.  The classification at the boundary.  In the demo world
    [a.png] decodes to an image whose Laplacian variance is exactly the
    threshold 20000, and [c.png] to one whose variance is 20001.  The
    specification asks for STATIC on the first and CONTENT on the second; line 44 returns
    [laplacian_var > threshold], so [is_static_image] answers [False]
    (content) on the first, which [curate] keeps, and [True] (static) on the
    second, which [curate] removes. *)
Theorem is_static_image_boundary :
  let at_threshold : filesystem := {[ "satnogs_images/a.png" := File [Byte.x0a] ]} in
  let one_above : filesystem := {[ "satnogs_images/c.png" := File [Byte.x0b] ]} in
  is_static_image Demo.up "satnogs_images/a.png" default_threshold at_threshold =
    Outcome at_threshold
      [EImread "satnogs_images/a.png";
       EPrint (MsgVariance "satnogs_images/a.png" (inject_Z 20000))]
      (Ok false) /\
  out_fs (curate Demo.up "satnogs_images/a.png" at_threshold) = at_threshold /\
  is_static_image Demo.up "satnogs_images/c.png" default_threshold one_above =
    Outcome one_above
      [EImread "satnogs_images/c.png";
       EPrint (MsgVariance "satnogs_images/c.png" (inject_Z 20001))]
      (Ok true) /\
  out_fs (curate Demo.up "satnogs_images/c.png" one_above) = ∅.
Proof. vm_compute. repeat split; reflexivity. Qed.

(** C2.  When the two branches of lines 82-86 run on a downloaded file, the
    file is removed if [is_static_image] answered static and is left as it
    was if it answered content; afterwards the file exists if and only if
    the answer was content.  No other path changes. *)
Theorem curate_removes_iff_static (P : platform) (path : string) (data : bytes)
    (fs : filesystem) :
  fs !! path = Some (File data) ->
  exists static,
    out_res (is_static_image P path default_threshold fs) = Ok static /\
    out_res (curate P path fs) = Ok tt /\
    (static = true -> out_fs (curate P path fs) !! path = None) /\
    (static = false -> out_fs (curate P path fs) !! path = Some (File data)) /\
    (is_file (out_fs (curate P path fs)) path <-> static = false) /\
    (forall other, other <> path ->
       out_fs (curate P path fs) !! other = fs !! other).
Proof.
  intros Hfile.
  destruct (curate_cases P path data fs Hfile) as (static & m & Hs & _ & Hc).
  exists static. rewrite Hs, Hc. destruct static; cbn [out_res out_fs].
  - repeat split; try reflexivity; try discriminate.
    + intros _. apply lookup_delete_eq.
    + intros [d Hd]. rewrite lookup_delete_eq in Hd. discriminate.
    + intros other Hne. apply lookup_delete_ne. congruence.
  - repeat split; try reflexivity; try discriminate.
    + intros _. exact Hfile.
    + exists data. exact Hfile.
Qed.

Lemma curate_removes_iff_static_witness :
  exists static,
    out_res (is_static_image Demo.up "satnogs_images/c.png" default_threshold
               {[ "satnogs_images/c.png" := File [Byte.x0b] ]}) = Ok static /\
    out_res (curate Demo.up "satnogs_images/c.png"
               {[ "satnogs_images/c.png" := File [Byte.x0b] ]}) = Ok tt /\
    (static = true ->
       out_fs (curate Demo.up "satnogs_images/c.png"
                 {[ "satnogs_images/c.png" := File [Byte.x0b] ]})
         !! "satnogs_images/c.png" = None) /\
    (static = false ->
       out_fs (curate Demo.up "satnogs_images/c.png"
                 {[ "satnogs_images/c.png" := File [Byte.x0b] ]})
         !! "satnogs_images/c.png" = Some (File [Byte.x0b])) /\
    (is_file (out_fs (curate Demo.up "satnogs_images/c.png"
                        {[ "satnogs_images/c.png" := File [Byte.x0b] ]}))
       "satnogs_images/c.png" <-> static = false) /\
    (forall other, other <> "satnogs_images/c.png" ->
       out_fs (curate Demo.up "satnogs_images/c.png"
                 {[ "satnogs_images/c.png" := File [Byte.x0b] ]}) !! other =
       ({[ "satnogs_images/c.png" := File [Byte.x0b] ]} : filesystem) !! other).
Proof.
  apply (curate_removes_iff_static Demo.up "satnogs_images/c.png" [Byte.x0b]).
  vm_compute. reflexivity.
Defined.

(** C3.  A file whose bytes do not decode as an image is classified static
    for every threshold, zero and negative ones included: [is_static_image]
    reports the load error and returns [True], and the branches after it
    remove the file. *)
Theorem undecodable_is_static (P : platform) (path : string) (data : bytes)
    (fs : filesystem) :
  fs !! path = Some (File data) ->
  imdecode P data = None ->
  (forall threshold : Q,
     is_static_image P path threshold fs =
       Outcome fs [EImread path; EPrint (MsgLoadError path)] (Ok true)) /\
  curate P path fs =
    Outcome (delete path fs)
      [EImread path; EPrint (MsgLoadError path);
       EPrint (MsgStatic path); ERemove path]
      (Ok tt).
Proof.
  intros Hfile Hnone.
  assert (Hs : forall threshold : Q,
             is_static_image P path threshold fs =
               Outcome fs [EImread path; EPrint (MsgLoadError path)] (Ok true)).
  { intros threshold. rewrite is_static_image_cases, Hfile, Hnone. reflexivity. }
  split; [exact Hs|].
  unfold curate, bind. rewrite Hs. cbn [out_res out_fs out_trace].
  unfold print, emit, os_remove. cbn [out_res out_fs out_trace].
  rewrite Hfile. reflexivity.
Qed.

Lemma undecodable_is_static_witness :
  (forall threshold : Q,
     is_static_image Demo.up "satnogs_images/a.png" threshold
       {[ "satnogs_images/a.png" := File [] ]} =
       Outcome {[ "satnogs_images/a.png" := File [] ]}
         [EImread "satnogs_images/a.png";
          EPrint (MsgLoadError "satnogs_images/a.png")] (Ok true)) /\
  curate Demo.up "satnogs_images/a.png" {[ "satnogs_images/a.png" := File [] ]} =
    Outcome (delete "satnogs_images/a.png" {[ "satnogs_images/a.png" := File [] ]})
      [EImread "satnogs_images/a.png";
       EPrint (MsgLoadError "satnogs_images/a.png");
       EPrint (MsgStatic "satnogs_images/a.png");
       ERemove "satnogs_images/a.png"]
      (Ok tt).
Proof.
  apply (undecodable_is_static Demo.up "satnogs_images/a.png" []).
  - vm_compute. reflexivity.
  - reflexivity.
Defined.

(** ** Traces of loops *)

Lemma curated_once_app (a b : list event) :
  curated_once a -> curated_once b -> curated_once (a ++ b).
Proof.
  intros Ha Hb. induction Ha; simpl; [exact Hb | |]; constructor; exact IHHa.
Qed.

Lemma life_app (a b : list event) : life (a ++ b) = (life a ++ life b)%list.
Proof. apply List.filter_app. Qed.

Lemma count_app (f : event -> bool) (a b : list event) :
  (count f (a ++ b) = count f a + count f b)%nat.
Proof. unfold count. rewrite List.filter_app. apply List.length_app. Qed.

Lemma count_life (f : event -> bool) (t : list event) :
  (forall e, f e = true -> is_life_event e = true) ->
  count f (life t) = count f t.
Proof.
  intros Hf. unfold count, life. induction t as [|e t IH]; [reflexivity|].
  simpl. destruct (is_life_event e) eqn:El; simpl.
  - destruct (f e); simpl; congruence.
  - destruct (f e) eqn:Ef; [|exact IH].
    rewrite (Hf e Ef) in El. discriminate.
Qed.

Lemma curated_once_counts (t : list event) :
  curated_once t ->
  count is_classified t = count is_saved t /\
  (count is_removed t + count is_kept t = count is_saved t)%nat.
Proof.
  induction 1 as [|path data rest _ [IH1 IH2]|path data rest _ [IH1 IH2]];
    [split; reflexivity | |];
    unfold count in *; simpl; split; lia.
Qed.

Section Loops.

(** A property of traces that holds of the empty trace and is kept by
    concatenation holds of a sequence and of a loop when it holds of each
    part, whether the run ends normally or in an exception. *)
Variable Good : list event -> Prop.
Hypothesis Good_nil : Good [].
Hypothesis Good_app : forall a b, Good a -> Good b -> Good (a ++ b).

Lemma bind_trace {A B} (m : M A) (k : A -> M B) (fs : filesystem) :
  Good (out_trace (m fs)) ->
  (forall a fs', Good (out_trace (k a fs'))) ->
  Good (out_trace (bind m k fs)).
Proof.
  intros Hm Hk. unfold bind. destruct (out_res (m fs)); cbn [out_trace].
  - apply Good_app; [exact Hm | apply Hk].
  - exact Hm.
Qed.

Lemma for_each_trace {A} (body : A -> M unit) (xs : list A) :
  (forall x fs, Good (out_trace (body x fs))) ->
  forall fs, Good (out_trace (for_each xs body fs)).
Proof.
  intros Hbody. induction xs as [|x xs IH]; intros fs; simpl.
  - exact Good_nil.
  - apply bind_trace; [apply Hbody | intros _ fs'; apply IH].
Qed.

End Loops.

Lemma curated_life_app (a b : list event) :
  curated_once (life a) -> curated_once (life b) ->
  curated_once (life (a ++ b)%list).
Proof. intros Ha Hb. rewrite life_app. now apply curated_once_app. Qed.

Section Life.

Variable P : platform.

Lemma process_payload_life (data : json) (fs : filesystem) :
  curated_once (life (out_trace (process_payload P data fs))).
Proof.
  destruct (process_payload_shape P data fs)
    as [(t & -> & Ht) | (url & Hp & Hfree & Hst & Hdir)].
  - induction Ht as [|e t He _ IH]; [constructor|].
    destruct e as [| | | | |[]]; try destruct He; exact IH.
  - destruct (process_payload_saved P data url fs Hp Hfree Hst Hdir)
      as (static & m & _ & Hm & ->).
    cbn [out_trace]. destruct m; try discriminate;
      destruct static; cbn; repeat constructor.
Qed.

Lemma process_observation_life (obs : json) (fs : filesystem) :
  curated_once (life (out_trace (process_observation P obs fs))).
Proof.
  pose (Good := fun t => curated_once (life t)).
  assert (Hnil : Good []) by constructor.
  pose proof curated_life_app as Happ. fold Good in Happ.
  change (Good (out_trace (process_observation P obs fs))).
  unfold process_observation.
  apply (bind_trace Good Happ).
  { destruct obs; try exact Hnil. simpl.
    destruct (dict_lookup "id" fields); exact Hnil. }
  intros observation_id fs1. apply (bind_trace Good Happ); [exact Hnil|].
  intros _ fs2. apply (bind_trace Good Happ).
  { destruct obs; try exact Hnil. simpl.
    destruct (dict_lookup "demoddata" fields); exact Hnil. }
  intros decoded_data fs3. apply (bind_trace Good Happ).
  { destruct decoded_data; exact Hnil. }
  intros payloads fs4. apply (for_each_trace Good Hnil Happ).
  intros data fs5. apply process_payload_life.
Qed.

Lemma get_sstv_images_life (station_id satellite_id : Z)
    (start_date end_date : option (datetime P)) (limit : Z) (fs : filesystem) :
  curated_once
    (life (out_trace (get_sstv_images P station_id satellite_id
                        start_date end_date limit fs))).
Proof.
  pose (Good := fun t => curated_once (life t)).
  assert (Hnil : Good []) by constructor.
  pose proof curated_life_app as Happ. fold Good in Happ.
  change (Good (out_trace (get_sstv_images P station_id satellite_id
                             start_date end_date limit fs))).
  unfold get_sstv_images.
  apply (bind_trace Good Happ); [exact Hnil|].
  intros response fs1.
  destruct (negb (Z.eqb (status_code response) 200)).
  { apply (bind_trace Good Happ); [exact Hnil | intros; exact Hnil]. }
  apply (bind_trace Good Happ).
  { unfold response_json. destruct (json_body response); exact Hnil. }
  intros observations fs2. apply (bind_trace Good Happ).
  { destruct observations; exact Hnil. }
  intros obs_list fs3. apply (for_each_trace Good Hnil Happ).
  intros obs fs4. apply process_observation_life.
Qed.

End Life.

(** C4.  In a run of [get_sstv_images], whatever the server answers and
    whatever is on disk, and also when the run ends in an exception, the
    events on downloaded images come in complete groups: a file is written,
    read back once for classification, and then removed or announced as
    kept, once.  So as many classifications as saved downloads, and each
    saved download is disposed of exactly once. *)
Theorem downloaded_images_curated_once (P : platform)
    (station_id satellite_id : Z) (start_date end_date : option (datetime P))
    (limit : Z) (fs : filesystem) :
  let t := out_trace (get_sstv_images P station_id satellite_id
                        start_date end_date limit fs) in
  curated_once (life t) /\
  count is_classified t = count is_saved t /\
  (count is_removed t + count is_kept t = count is_saved t)%nat.
Proof.
  intros t.
  pose proof (get_sstv_images_life P station_id satellite_id
                start_date end_date limit fs) as H.
  fold t in H. split; [exact H|].
  destruct (curated_once_counts _ H) as [H1 H2].
  assert (Hc : forall f, (forall e, f e = true -> is_life_event e = true) ->
                         count f (life t) = count f t)
    by (intros f Hf; now apply count_life).
  rewrite (Hc is_classified), (Hc is_saved) in H1
    by (intros [] He; try discriminate; reflexivity).
  rewrite (Hc is_removed), (Hc is_kept), (Hc is_saved) in H2
    by (intros [| | | | |[]] He; try discriminate; reflexivity).
  split; assumption.
Qed.

(** ** A list of payloads *)

Lemma is_directory_insert_file (fs : filesystem) (path other : string) (body : bytes) :
  is_directory fs path = false ->
  is_directory (<[path := File body]> fs) other = is_directory fs other.
Proof.
  unfold is_directory. intros Hp. destruct (decide (path = other)) as [<-|Hne].
  - rewrite lookup_insert_eq. destruct (fs !! path) as [[|]|]; congruence.
  - rewrite lookup_insert_ne by exact Hne. reflexivity.
Qed.

Lemma is_directory_delete_file (fs : filesystem) (path other : string) (body : bytes) :
  fs !! path = Some (File body) ->
  is_directory (delete path fs) other = is_directory fs other.
Proof.
  unfold is_directory. intros Hp. destruct (decide (path = other)) as [<-|Hne].
  - rewrite lookup_delete_eq, Hp. reflexivity.
  - rewrite lookup_delete_ne by exact Hne. reflexivity.
Qed.

Lemma made_made (fs : filesystem) : made (made fs) = made fs.
Proof. unfold made. apply insert_insert_eq. Qed.

Lemma made_insert_saved (fs : filesystem) (url : string) (body : bytes) :
  made (<[saved_as url := File body]> (made fs)) =
  <[saved_as url := File body]> (made fs).
Proof.
  unfold made. rewrite insert_insert_ne by (pose proof (saved_as_not_dir url); congruence).
  rewrite insert_insert_eq. reflexivity.
Qed.

Lemma made_delete_saved (fs : filesystem) (url : string) :
  made (delete (saved_as url) fs) = delete (saved_as url) (made fs).
Proof.
  unfold made. symmetry. apply delete_insert_ne.
  pose proof (saved_as_not_dir url). congruence.
Qed.

Lemma workdir_free_insert_saved (fs : filesystem) (url : string) (body : bytes) :
  workdir_free fs -> workdir_free (<[saved_as url := File body]> fs).
Proof.
  intros Hfree data. rewrite lookup_insert_ne; [apply Hfree|].
  apply saved_as_not_dir.
Qed.

Lemma workdir_free_delete (fs : filesystem) (path : string) :
  workdir_free fs -> workdir_free (delete path fs).
Proof.
  intros Hfree data H. destruct (decide (path = default_save_dir)) as [->|Hne].
  - rewrite lookup_delete_eq in H. discriminate.
  - rewrite lookup_delete_ne in H by exact Hne. exact (Hfree data H).
Qed.

Section PayloadList.

Variable P : platform.

(** One step of the inner loop on a payload whose image is missing on the
    server or can be saved: it ends normally, keeps what the next step
    needs, and classifies exactly when the download succeeded. *)
Lemma process_payload_step (data : json) (url : string) (fs : filesystem) :
  payload_of data url ->
  workdir_free fs ->
  (served P url = true -> is_directory (made fs) (saved_as url) = false) ->
  let o := process_payload P data fs in
  out_res o = Ok tt /\
  workdir_free (out_fs o) /\
  (forall path, is_directory (made (out_fs o)) path = is_directory (made fs) path) /\
  count is_download (out_trace o) = 1%nat /\
  count is_classified (out_trace o) = (if served P url then 1 else 0)%nat /\
  count is_download_failure (out_trace o) = (if served P url then 0 else 1)%nat.
Proof.
  intros Hp Hfree Hdir. unfold served in *.
  destruct (Z.eqb (status_code (http P url [])) 200) eqn:Hst.
  - apply Z.eqb_eq in Hst. specialize (Hdir eq_refl).
    destruct (process_payload_saved P data url fs Hp Hfree Hst Hdir)
      as (static & m & _ & Hm & ->).
    cbn [out_res out_fs out_trace].
    split; [reflexivity|]. split; [|split].
    + destruct static.
      * apply workdir_free_delete, workdir_free_insert_saved, workdir_free_made.
      * apply workdir_free_insert_saved, workdir_free_made.
    + intros path. fold (made fs). destruct static.
      * rewrite made_delete_saved, made_insert_saved.
        rewrite (is_directory_delete_file _ _ _ (content (http P url [])))
          by apply lookup_insert_eq.
        now apply is_directory_insert_file.
      * rewrite made_insert_saved. now apply is_directory_insert_file.
    + destruct m; try discriminate; destruct static; repeat split; reflexivity.
  - apply Z.eqb_neq in Hst.
    rewrite (process_payload_failed P data url fs Hp Hfree Hst).
    cbn [out_res out_fs out_trace]. fold (made fs). rewrite made_made.
    repeat split; try reflexivity. apply workdir_free_made.
Qed.

(** The inner loop over payloads each of which is missing or can be saved. *)
Lemma for_each_payload (payloads : list json) (urls : list string) :
  Forall2 payload_of payloads urls ->
  forall fs : filesystem,
  workdir_free fs ->
  (forall url, In url urls -> served P url = true ->
               is_directory (made fs) (saved_as url) = false) ->
  let o := for_each payloads (process_payload P) fs in
  out_res o = Ok tt /\
  count is_download (out_trace o) = List.length urls /\
  count is_classified (out_trace o) = List.length (List.filter (served P) urls) /\
  count is_download_failure (out_trace o) =
    List.length (List.filter (fun url => negb (served P url)) urls).
Proof.
  induction 1 as [|data url payloads urls Hp _ IH]; intros fs Hfree Hdir.
  - repeat split; reflexivity.
  - destruct (process_payload_step data url fs Hp Hfree)
      as (Hres & Hfree' & Hsame & Hd & Hc & Hf).
    { apply Hdir. now left. }
    specialize (IH (out_fs (process_payload P data fs)) Hfree').
    destruct IH as (IHres & IHd & IHc & IHf).
    { intros url' Hin Hs. rewrite Hsame. apply Hdir; [now right | exact Hs]. }
    cbn [for_each]. unfold bind. rewrite Hres. cbn [out_res out_fs out_trace].
    rewrite !count_app, Hd, Hc, Hf, IHd, IHc, IHf. cbn [List.filter].
    split; [exact IHres|].
    destruct (served P url); cbn [negb List.length]; repeat split; lia.
Qed.

(** An observation record with an identifier: the loop body prints it and
    runs the inner loop over [demoddata], or over nothing when the record
    has no such field. *)
Lemma process_observation_record (fields : list (string * json))
    (observation_id : json) (fs : filesystem) :
  dict_lookup "id" fields = Some observation_id ->
  process_observation P (JObj fields) fs =
    let decoded_data := default (JArr []) (dict_lookup "demoddata" fields) in
    match py_iter decoded_data fs with
    | {| out_res := Ok payloads |} =>
        let o := for_each payloads (process_payload P) fs in
        Outcome (out_fs o) (EPrint (MsgProcessing observation_id) :: out_trace o)
          (out_res o)
    | {| out_res := Raise e |} =>
        Outcome fs [EPrint (MsgProcessing observation_id)] (Raise e)
    end.
Proof.
  intros Hid. unfold process_observation, bind, subscript, dict_get.
  rewrite Hid. cbn [ret print emit out_res out_fs out_trace].
  destruct (dict_lookup "demoddata" fields) as [decoded_data|];
    cbn [default from_option id ret out_res out_fs out_trace].
  - destruct decoded_data; reflexivity.
  - reflexivity.
Qed.

End PayloadList.

Lemma filter_partition_length {A} (f : A -> bool) (xs : list A) :
  (List.length (List.filter f xs) +
   List.length (List.filter (fun x => negb (f x)) xs) = List.length xs)%nat.
Proof.
  induction xs as [|x xs IH]; [reflexivity|].
  simpl. destruct (f x); simpl; lia.
Qed.

(** C5.  A payload whose download answers a status other than 200 is
    reported and otherwise skipped: the step makes the directory, sends the
    request, prints the failure and ends normally, with no write, no
    classification and no removal.  The loop of an observation goes on with
    the remaining payloads: when every payload is either refused by the
    server or can be saved, the observation ends normally with one request
    per payload, one classification per successful download and one report
    per failure; three payloads of which exactly one fails give exactly two
    classifications. *)
Theorem failed_download_is_skipped (P : platform) (fields : list (string * json))
    (observation_id : json) (payloads : list json) (urls : list string)
    (fs : filesystem) :
  dict_lookup "id" fields = Some observation_id ->
  dict_lookup "demoddata" fields = Some (JArr payloads) ->
  Forall2 payload_of payloads urls ->
  workdir_free fs ->
  (forall url, In url urls -> served P url = true ->
               is_directory (made fs) (saved_as url) = false) ->
  (forall data url fs',
     payload_of data url -> workdir_free fs' -> served P url = false ->
     process_payload P data fs' =
       Outcome (made fs')
         [EMakedirs default_save_dir; EGet url [];
          EPrint (MsgDownloadFailed url (status_code (http P url [])))]
         (Ok tt)) /\
  let o := process_observation P (JObj fields) fs in
  out_res o = Ok tt /\
  count is_download (out_trace o) = List.length urls /\
  count is_classified (out_trace o) = List.length (List.filter (served P) urls) /\
  count is_download_failure (out_trace o) =
    List.length (List.filter (fun url => negb (served P url)) urls) /\
  (List.length urls = 3%nat ->
   List.length (List.filter (fun url => negb (served P url)) urls) = 1%nat ->
   count is_classified (out_trace o) = 2%nat).
Proof.
  intros Hid Hdata Hps Hfree Hdir. split.
  - intros data url fs' Hp Hfree' Hs. apply process_payload_failed; auto.
    unfold served in Hs. now apply Z.eqb_neq.
  - destruct (for_each_payload P payloads urls Hps fs Hfree Hdir)
      as (Hres & Hd & Hc & Hf).
    rewrite (process_observation_record P fields observation_id fs Hid), Hdata.
    cbn [default from_option id py_iter ret out_res out_fs out_trace].
    change (EPrint (MsgProcessing observation_id) ::
            out_trace (for_each payloads (process_payload P) fs))
      with ([EPrint (MsgProcessing observation_id)] ++
            out_trace (for_each payloads (process_payload P) fs))%list.
    rewrite !count_app, Hd, Hc, Hf.
    split; [exact Hres|]. repeat split; try reflexivity.
    intros H3 H1.
    pose proof (filter_partition_length (served P) urls).
    change (count is_classified [EPrint (MsgProcessing observation_id)]) with 0%nat.
    lia.
Qed.

Lemma failed_download_is_skipped_witness :
  (forall data url fs',
     payload_of data url -> workdir_free fs' -> served Demo.up url = false ->
     process_payload Demo.up data fs' =
       Outcome (made fs')
         [EMakedirs default_save_dir; EGet url [];
          EPrint (MsgDownloadFailed url (status_code (http Demo.up url [])))]
         (Ok tt)) /\
  let urls := [Demo.url_a; Demo.url_b; Demo.url_c] in
  let o := process_observation Demo.up
             (JObj [("id", JInt 1); ("demoddata", JArr (map Demo.payload urls))]) ∅ in
  out_res o = Ok tt /\
  count is_download (out_trace o) = List.length urls /\
  count is_classified (out_trace o) =
    List.length (List.filter (served Demo.up) urls) /\
  count is_download_failure (out_trace o) =
    List.length (List.filter (fun url => negb (served Demo.up url)) urls) /\
  (List.length urls = 3%nat ->
   List.length (List.filter (fun url => negb (served Demo.up url)) urls) = 1%nat ->
   count is_classified (out_trace o) = 2%nat).
Proof.
  apply (failed_download_is_skipped Demo.up
           [("id", JInt 1);
            ("demoddata", JArr (map Demo.payload [Demo.url_a; Demo.url_b; Demo.url_c]))]
           (JInt 1)
           (map Demo.payload [Demo.url_a; Demo.url_b; Demo.url_c])
           [Demo.url_a; Demo.url_b; Demo.url_c] ∅).
  - reflexivity.
  - reflexivity.
  - repeat constructor; eexists; (split; [reflexivity|]); reflexivity.
  - intros data H. vm_compute in H. discriminate.
  - intros url [<-|[<-|[<-|[]]]] _; vm_compute; reflexivity.
Defined.

(** ** The observation list *)

(** C6.  When the request for the observation list is answered with a
    status other than 200, the run is over: the trace holds that one
    request and the report of the failure, so nothing is retried, no image
    is downloaded or classified, the file system is untouched, and the
    function returns without a value. *)
Theorem fetch_failure_ends_run (P : platform) (station_id satellite_id : Z)
    (start_date end_date : option (datetime P)) (limit : Z) (fs : filesystem)
    (query : params) :
  query = query_params P station_id satellite_id start_date end_date limit ->
  status_code (http P API_URL query) <> 200 ->
  get_sstv_images P station_id satellite_id start_date end_date limit fs =
    Outcome fs
      [EGet API_URL query;
       EPrint (MsgRetrieveFailed (status_code (http P API_URL query)))]
      (Ok tt).
Proof.
  intros -> Hst. unfold get_sstv_images, bind, requests_get.
  cbn [out_res out_fs out_trace].
  apply Z.eqb_neq in Hst. rewrite Hst. reflexivity.
Qed.

Lemma fetch_failure_ends_run_witness :
  Demo.run 503 ∅ =
    Outcome ∅
      [EGet API_URL Demo.query; EPrint (MsgRetrieveFailed 503)]
      (Ok tt).
Proof.
  assert (Hq : Demo.query =
               query_params Demo.down 2433 25544
                 (Some "2024-10-01") (Some "2024-10-17") 10)
    by reflexivity.
  assert (Hst : status_code (http Demo.down API_URL Demo.query) <> 200)
    by (vm_compute; discriminate).
  exact (fetch_failure_ends_run Demo.down 2433 25544
           (Some "2024-10-01") (Some "2024-10-17") 10 ∅ Demo.query Hq Hst).
Defined.

(** C7.  An observation whose [demoddata] is an empty list costs no
    download and no classification: the file system is left as it was and
    the trace holds console lines only, a single one when the record has an
    identifier. *)
Theorem empty_demoddata_no_work (P : platform) (fields : list (string * json))
    (fs : filesystem) :
  dict_lookup "demoddata" fields = Some (JArr []) ->
  let o := process_observation P (JObj fields) fs in
  out_fs o = fs /\
  count is_download (out_trace o) = 0%nat /\
  count is_saved (out_trace o) = 0%nat /\
  count is_classified (out_trace o) = 0%nat /\
  count is_removed (out_trace o) = 0%nat /\
  (forall observation_id, dict_lookup "id" fields = Some observation_id ->
     o = Outcome fs [EPrint (MsgProcessing observation_id)] (Ok tt)).
Proof.
  intros Hdata o. subst o.
  destruct (dict_lookup "id" fields) as [observation_id|] eqn:Hid.
  - rewrite (process_observation_record P fields observation_id fs Hid), Hdata.
    cbn. repeat split; try reflexivity. intros ? [= <-]. reflexivity.
  - unfold process_observation, bind, subscript. rewrite Hid.
    cbn. repeat split; try reflexivity. discriminate.
Qed.

Lemma empty_demoddata_no_work_witness :
  let o := process_observation Demo.up
             (JObj [("id", JInt 2); ("demoddata", JArr [])]) ∅ in
  out_fs o = ∅ /\
  count is_download (out_trace o) = 0%nat /\
  count is_saved (out_trace o) = 0%nat /\
  count is_classified (out_trace o) = 0%nat /\
  count is_removed (out_trace o) = 0%nat /\
  (forall observation_id,
     dict_lookup "id" [("id", JInt 2); ("demoddata", JArr [])] = Some observation_id ->
     o = Outcome ∅ [EPrint (MsgProcessing observation_id)] (Ok tt)).
Proof.
  apply (empty_demoddata_no_work Demo.up [("id", JInt 2); ("demoddata", JArr [])] ∅).
  reflexivity.
Defined.

(** C9.  An observation record that has an identifier but no [demoddata]
    field is handled as one with no payloads: [obs.get("demoddata", [])]
    gives the empty list, no exception is raised, and nothing is
    downloaded or classified. *)
Theorem missing_demoddata_no_work (P : platform) (fields : list (string * json))
    (observation_id : json) (fs : filesystem) :
  dict_lookup "id" fields = Some observation_id ->
  dict_lookup "demoddata" fields = None ->
  process_observation P (JObj fields) fs =
    Outcome fs [EPrint (MsgProcessing observation_id)] (Ok tt).
Proof.
  intros Hid Hdata.
  rewrite (process_observation_record P fields observation_id fs Hid), Hdata.
  reflexivity.
Qed.

Lemma missing_demoddata_no_work_witness :
  process_observation Demo.up (JObj [("id", JInt 3)]) ∅ =
    Outcome ∅ [EPrint (MsgProcessing (JInt 3))] (Ok tt).
Proof.
  apply (missing_demoddata_no_work Demo.up [("id", JInt 3)] (JInt 3) ∅);
    reflexivity.
Defined.

(** ** Downloads *)

(** C8.  When the server answers 200 and the save path can be opened,
    [download_image] writes the body of the answer to the file named by the
    last piece of [url.split("/")] inside [satnogs_images], a piece that
    holds no slash and is the whole URL or what follows its last slash, and
    returns that path.  A second successful download whose URL ends in the
    same piece goes to the same path without any error and replaces the
    bytes of the first. *)
Theorem download_image_saves (P : platform) (url : string) (fs : filesystem) :
  workdir_free fs ->
  served P url = true ->
  is_directory (made fs) (saved_as url) = false ->
  let body := content (http P url []) in
  let o := download_image P (JStr url) default_save_dir fs in
  (exists name,
     last (split "/" url) = Some name /\
     has_char "/" name = false /\
     (url = name \/ exists pre, url = pre ++ String "/" name) /\
     saved_as url = "satnogs_images/" ++ name) /\
  o = Outcome (<[saved_as url := File body]> (made fs))
        [EMakedirs default_save_dir; EGet url [];
         EWrite (saved_as url) body; EPrint (MsgDownloaded (saved_as url))]
        (Ok (Some (saved_as url))) /\
  (forall url2,
     last (split "/" url2) = last (split "/" url) ->
     served P url2 = true ->
     let body2 := content (http P url2 []) in
     download_image P (JStr url2) default_save_dir (out_fs o) =
       Outcome (<[saved_as url := File body2]> (made fs))
         [EMakedirs default_save_dir; EGet url2 [];
          EWrite (saved_as url) body2; EPrint (MsgDownloaded (saved_as url))]
         (Ok (Some (saved_as url)))).
Proof.
  intros Hfree Hs Hdir body o.
  assert (Ho : o = Outcome (<[saved_as url := File body]> (made fs))
                 [EMakedirs default_save_dir; EGet url [];
                  EWrite (saved_as url) body; EPrint (MsgDownloaded (saved_as url))]
                 (Ok (Some (saved_as url)))).
  { subst o. rewrite (download_image_cases P url fs Hfree).
    unfold served in Hs. rewrite Hs. fold (made fs). rewrite Hdir. reflexivity. }
  split; [|split; [exact Ho|]].
  - destruct (saved_as_inside url) as (name & Hn & Hp).
    destruct (split_last_spec _ _ _ Hn) as [Hc Hu].
    exists name. auto.
  - intros url2 Hlast Hs2 body2. rewrite Ho. cbn [out_fs].
    assert (Hp : saved_as url2 = saved_as url)
      by (unfold saved_as; rewrite Hlast; reflexivity).
    rewrite (download_image_cases P url2).
    2:{ apply workdir_free_insert_saved, workdir_free_made. }
    unfold served in Hs2. rewrite Hs2, Hp.
    fold (made (<[saved_as url := File body]> (made fs))).
    rewrite made_insert_saved.
    rewrite (is_directory_insert_file _ _ _ _ Hdir), Hdir.
    rewrite insert_insert_eq. reflexivity.
Qed.

Lemma download_image_saves_witness :
  let url := Demo.url_a in
  let fs : filesystem := ∅ in
  let body := content (http Demo.up url []) in
  let o := download_image Demo.up (JStr url) default_save_dir fs in
  (exists name,
     last (split "/" url) = Some name /\
     has_char "/" name = false /\
     (url = name \/ exists pre, url = pre ++ String "/" name) /\
     saved_as url = "satnogs_images/" ++ name) /\
  o = Outcome (<[saved_as url := File body]> (made fs))
        [EMakedirs default_save_dir; EGet url [];
         EWrite (saved_as url) body; EPrint (MsgDownloaded (saved_as url))]
        (Ok (Some (saved_as url))) /\
  (forall url2,
     last (split "/" url2) = last (split "/" url) ->
     served Demo.up url2 = true ->
     let body2 := content (http Demo.up url2 []) in
     download_image Demo.up (JStr url2) default_save_dir (out_fs o) =
       Outcome (<[saved_as url := File body2]> (made fs))
         [EMakedirs default_save_dir; EGet url2 [];
          EWrite (saved_as url) body2; EPrint (MsgDownloaded (saved_as url))]
         (Ok (Some (saved_as url)))).
Proof.
  assert (Hfree : workdir_free ∅)
    by (intros data H; rewrite lookup_empty in H; discriminate).
  assert (Hs : served Demo.up Demo.url_a = true) by (vm_compute; reflexivity).
  assert (Hdir : is_directory (made ∅) (saved_as Demo.url_a) = false)
    by (vm_compute; reflexivity).
  exact (download_image_saves Demo.up Demo.url_a ∅ Hfree Hs Hdir).
Defined.

(** C10.  [download_image] makes the working directory before anything
    else: when no regular file has its name, the directory exists after
    the call however the call ends, and [os.makedirs] is the first entry of
    the trace, ahead of the request.  When the server answers a status
    other than 200 the call returns [None] and the file system is the one
    it found plus the directory: nothing is written. *)
Theorem download_image_makes_dir (P : platform) (image_url : json) (fs : filesystem) :
  workdir_free fs ->
  let o := download_image P image_url default_save_dir fs in
  out_fs o !! default_save_dir = Some Dir /\
  (exists rest, out_trace o = EMakedirs default_save_dir :: rest) /\
  (forall url,
     image_url = JStr url -> served P url = false ->
     o = Outcome (made fs)
           [EMakedirs default_save_dir; EGet url [];
            EPrint (MsgDownloadFailed url (status_code (http P url [])))]
           (Ok None)).
Proof.
  intros Hfree o. subst o.
  assert (Hmade : made fs !! default_save_dir = Some Dir)
    by apply lookup_insert_eq.
  destruct image_url as [| | | |url| |];
    try (rewrite (download_image_not_str P _ fs Hfree) by discriminate;
         cbn [out_fs out_trace]; split; [exact Hmade|];
         split; [eexists; reflexivity | discriminate]).
  rewrite (download_image_cases P url fs Hfree). fold (made fs).
  unfold served.
  destruct (Z.eqb (status_code (http P url [])) 200) eqn:Hst.
  - destruct (is_directory (made fs) (saved_as url)); cbn [out_fs out_trace].
    + split; [exact Hmade|]. split; [eexists; reflexivity|].
      intros ? [= <-]. rewrite Hst. discriminate.
    + split.
      { rewrite lookup_insert_ne by apply saved_as_not_dir. exact Hmade. }
      split; [eexists; reflexivity|].
      intros ? [= <-]. rewrite Hst. discriminate.
  - cbn [out_fs out_trace]. split; [exact Hmade|].
    split; [eexists; reflexivity|]. intros ? [= <-] _. reflexivity.
Qed.

Lemma download_image_makes_dir_witness :
  let o := download_image Demo.up (JStr Demo.url_b) default_save_dir ∅ in
  out_fs o !! default_save_dir = Some Dir /\
  (exists rest, out_trace o = EMakedirs default_save_dir :: rest) /\
  (forall url,
     JStr Demo.url_b = JStr url -> served Demo.up url = false ->
     o = Outcome (made ∅)
           [EMakedirs default_save_dir; EGet url [];
            EPrint (MsgDownloadFailed url (status_code (http Demo.up url [])))]
           (Ok None)).
Proof.
  assert (Hfree : workdir_free ∅)
    by (intros data H; rewrite lookup_empty in H; discriminate).
  exact (download_image_makes_dir Demo.up (JStr Demo.url_b) ∅ Hfree).
Defined.

(** * Further properties of the script *)

(** ** [is_static_image] as a function of the threshold *)

(** X1.  On a file that decodes, [is_static_image] reads the file once,
    prints the variance, leaves the file system alone and returns the
    comparison of line 44: [True] exactly when the variance is strictly
    above the threshold, [False] exactly when it is at or below it. *)
Theorem decoded_image_static_iff_above (P : platform) (path : string)
    (data : bytes) (img : image P) (threshold : Q) (fs : filesystem) :
  fs !! path = Some (File data) ->
  imdecode P data = Some img ->
  exists static,
    is_static_image P path threshold fs =
      Outcome fs
        [EImread path; EPrint (MsgVariance path (laplacian_variance P img))]
        (Ok static) /\
    (static = true <-> (threshold < laplacian_variance P img)%Q) /\
    (static = false <-> (laplacian_variance P img <= threshold)%Q).
Proof.
  intros Hfile Himg. rewrite is_static_image_cases, Hfile, Himg.
  eexists. split; [reflexivity|].
  destruct (Qle_bool (laplacian_variance P img) threshold) eqn:E; cbn [negb].
  - apply Qle_bool_iff in E. split; split; try discriminate; auto.
    intros Hlt. exfalso. exact (Qlt_not_le _ _ Hlt E).
  - assert (Hlt : (threshold < laplacian_variance P img)%Q).
    { apply Qnot_le_lt. intros Hle. apply Qle_bool_iff in Hle. congruence. }
    split; split; auto; try discriminate.
    intros Hle. exfalso. exact (Qlt_not_le _ _ Hlt Hle).
Qed.

Lemma decoded_image_static_iff_above_witness :
  exists static,
    is_static_image Demo.up "satnogs_images/c.png" (inject_Z 100)
      {[ "satnogs_images/c.png" := File [Byte.x0b] ]} =
      Outcome {[ "satnogs_images/c.png" := File [Byte.x0b] ]}
        [EImread "satnogs_images/c.png";
         EPrint (MsgVariance "satnogs_images/c.png"
                   (laplacian_variance Demo.up (20001%Z : image Demo.up)))]
        (Ok static) /\
    (static = true <->
     (inject_Z 100 < laplacian_variance Demo.up (20001%Z : image Demo.up))%Q) /\
    (static = false <->
     (laplacian_variance Demo.up (20001%Z : image Demo.up) <= inject_Z 100)%Q).
Proof.
  assert (Hfile : ({[ "satnogs_images/c.png" := File [Byte.x0b] ]} : filesystem)
                    !! "satnogs_images/c.png" = Some (File [Byte.x0b]))
    by (vm_compute; reflexivity).
  assert (Himg : imdecode Demo.up [Byte.x0b] = Some (20001%Z : image Demo.up))
    by reflexivity.
  exact (decoded_image_static_iff_above Demo.up "satnogs_images/c.png"
           [Byte.x0b] 20001%Z (inject_Z 100) _ Hfile Himg).
Defined.

(** X2.  Raising the threshold never turns a content answer into a static
    one: whatever is at the path, if [is_static_image] answers static at a
    threshold it answers static at every lower threshold. *)
Theorem static_at_lower_threshold (P : platform) (path : string)
    (low high : Q) (fs : filesystem) :
  (low <= high)%Q ->
  out_res (is_static_image P path high fs) = Ok true ->
  out_res (is_static_image P path low fs) = Ok true.
Proof.
  intros Hle. rewrite !is_static_image_cases.
  destruct (fs !! path) as [[|data]|]; try (intros _; reflexivity).
  destruct (imdecode P data) as [img|]; [|intros _; reflexivity].
  cbn [out_res]. intros [= H]. f_equal.
  apply negb_true_iff in H. apply negb_true_iff.
  destruct (Qle_bool (laplacian_variance P img) low) eqn:E; [|reflexivity].
  apply Qle_bool_iff in E.
  assert (Hh : (laplacian_variance P img <= high)%Q) by (eapply Qle_trans; eauto).
  apply Qle_bool_iff in Hh. congruence.
Qed.

Lemma static_at_lower_threshold_witness :
  out_res (is_static_image Demo.up "satnogs_images/c.png" (inject_Z 0)
             {[ "satnogs_images/c.png" := File [Byte.x0b] ]}) = Ok true.
Proof.
  assert (Hle : (inject_Z 0 <= inject_Z 20000)%Q) by (vm_compute; discriminate).
  assert (Hhigh : out_res (is_static_image Demo.up "satnogs_images/c.png"
                             (inject_Z 20000)
                             {[ "satnogs_images/c.png" := File [Byte.x0b] ]}) = Ok true)
    by (vm_compute; reflexivity).
  exact (static_at_lower_threshold Demo.up "satnogs_images/c.png"
           (inject_Z 0) (inject_Z 20000) _ Hle Hhigh).
Defined.

(** X3.  Where there is no regular file at the path (nothing, or a
    directory), [cv2.imread] gives [None] and [is_static_image] reports the
    load error and answers static for every threshold, without touching the
    file system. *)
Theorem no_file_is_static (P : platform) (path : string) (fs : filesystem)
    (threshold : Q) :
  (forall data, fs !! path <> Some (File data)) ->
  is_static_image P path threshold fs =
    Outcome fs [EImread path; EPrint (MsgLoadError path)] (Ok true).
Proof.
  intros Hnone. rewrite is_static_image_cases.
  destruct (fs !! path) as [[|data]|] eqn:E; try reflexivity.
  destruct (Hnone data eq_refl).
Qed.

Lemma no_file_is_static_witness :
  is_static_image Demo.up "satnogs_images/missing.png" (inject_Z (-1)) ∅ =
    Outcome ∅
      [EImread "satnogs_images/missing.png";
       EPrint (MsgLoadError "satnogs_images/missing.png")] (Ok true).
Proof.
  assert (Hnone : forall data,
             (∅ : filesystem) !! "satnogs_images/missing.png" <> Some (File data))
    by (intros data H; rewrite lookup_empty in H; discriminate).
  exact (no_file_is_static Demo.up "satnogs_images/missing.png" ∅
           (inject_Z (-1)) Hnone).
Defined.

(** ** More on strings and paths *)

Lemma has_char_app_sep (sep : ascii) (pre s : string) :
  has_char sep (pre ++ String sep s) = true.
Proof.
  induction pre as [|c pre IH]; simpl.
  - rewrite Ascii.eqb_refl. reflexivity.
  - rewrite IH. apply orb_true_r.
Qed.

Lemma split_nonempty (sep : ascii) (s : string) :
  exists w ws, split sep s = w :: ws.
Proof.
  destruct (has_char sep s) eqn:Es.
  - destruct (split_has_sep _ _ Es) as (w & w' & ws & ->). eauto.
  - rewrite (split_no_sep _ _ Es). eauto.
Qed.

(** What precedes a separator does not change the last piece. *)
Lemma split_last_app (sep : ascii) (pre s : string) :
  last (split sep (pre ++ String sep s)) = last (split sep s).
Proof.
  induction pre as [|c pre IH]; simpl.
  - rewrite Ascii.eqb_refl. destruct (split_nonempty sep s) as (w & ws & ->).
    reflexivity.
  - destruct (split_has_sep sep _ (has_char_app_sep sep pre s))
      as (w & w' & ws & Hs).
    rewrite Hs in *. destruct (Ascii.eqb c sep); exact IH.
Qed.

Lemma split_last_prefixed (sep : ascii) (pre name : string) :
  has_char sep name = false ->
  last (split sep (pre ++ String sep name)) = Some name.
Proof.
  intros Hn. rewrite split_last_app, (split_no_sep _ _ Hn). reflexivity.
Qed.

Lemma endswith_app (c : ascii) (s : string) :
  endswith c s = true -> exists pre, s = pre ++ String c "".
Proof.
  induction s as [|x s IH]; simpl; [discriminate|].
  destruct s as [|y s].
  - intros H. apply Ascii.eqb_eq in H. subst x. exists "". reflexivity.
  - intros H. destruct (IH H) as [pre Hp]. exists (String x pre).
    change (String x (String y s) = String x (pre ++ String c "")).
    f_equal. exact Hp.
Qed.

Lemma is_directory_names (fs : filesystem) (path : string) :
  is_directory fs path = false -> names_directory path = false.
Proof.
  unfold is_directory. destruct (fs !! path) as [[|]|]; auto. discriminate.
Qed.

(** A save path that can be opened is a file name inside the working
    directory. *)
Lemma saved_as_confined (url : string) (fs : filesystem) :
  is_directory fs (saved_as url) = false -> confined (saved_as url).
Proof.
  intros Hdir. apply is_directory_names in Hdir.
  destruct (saved_as_inside url) as (name & Hn & Hp).
  destruct (split_last_spec _ _ _ Hn) as [Hc _].
  exists name. split; [exact Hp|]. split; [exact Hc|].
  rewrite Hp in Hdir. unfold names_directory in Hdir.
  change ("satnogs_images/" ++ name) with ("satnogs_images" ++ String "/" name) in Hdir.
  rewrite (split_last_prefixed "/" "satnogs_images" name Hc) in Hdir.
  repeat split; intros ->; discriminate.
Qed.

Lemma outside_saved_as (path url : string) : outside path -> path <> saved_as url.
Proof.
  intros [_ Hout]. destruct (saved_as_inside url) as (name & _ & ->). apply Hout.
Qed.

(** ** Loops, with the file system *)

Section Hoare.

(** An invariant of the file system and a property of traces kept by
    concatenation go through sequences and loops, exceptions included. *)
Variable Inv : filesystem -> Prop.
Variable Good : list event -> Prop.
Hypothesis Good_nil : Good [].
Hypothesis Good_app : forall a b, Good a -> Good b -> Good (a ++ b).

Lemma keeps_ret {A} (a : A) : keeps Inv Good (ret a).
Proof. intros fs H. split; [exact H | exact Good_nil]. Qed.

Lemma keeps_raise {A} (e : exn) : keeps Inv Good (raise (A := A) e).
Proof. intros fs H. split; [exact H | exact Good_nil]. Qed.

Lemma keeps_bind {A B} (m : M A) (k : A -> M B) :
  keeps Inv Good m -> (forall a, keeps Inv Good (k a)) -> keeps Inv Good (bind m k).
Proof.
  intros Hm Hk fs Hfs. destruct (Hm fs Hfs) as [H1 H2]. unfold bind.
  destruct (out_res (m fs)) as [a|e]; cbn [out_fs out_trace].
  - destruct (Hk a _ H1) as [H3 H4]. split; [exact H3 | now apply Good_app].
  - split; assumption.
Qed.

Lemma keeps_for_each {A} (body : A -> M unit) (xs : list A) :
  (forall x, keeps Inv Good (body x)) -> keeps Inv Good (for_each xs body).
Proof.
  intros Hbody. induction xs as [|x xs IH]; simpl.
  - apply keeps_ret.
  - apply keeps_bind; [apply Hbody | intros _; exact IH].
Qed.

End Hoare.

Lemma get_sstv_images_unfold (P : platform) (station_id satellite_id : Z)
    (start_date end_date : option (datetime P)) (limit : Z) (fs : filesystem) :
  get_sstv_images P station_id satellite_id start_date end_date limit fs =
    let query := query_params P station_id satellite_id start_date end_date limit in
    let o := handle_response P (http P API_URL query) fs in
    Outcome (out_fs o) (EGet API_URL query :: out_trace o) (out_res o).
Proof. reflexivity. Qed.

Section Run.

Variable P : platform.
Variable Inv : filesystem -> Prop.
Variable Good : list event -> Prop.
Hypothesis Good_nil : Good [].
Hypothesis Good_app : forall a b, Good a -> Good b -> Good (a ++ b).
Hypothesis Good_print : forall m, Good [EPrint m].
Hypothesis payload_keeps : forall data, keeps Inv Good (process_payload P data).

(** What every payload step keeps, every observation keeps, and so does
    everything the script does with the answer of the server. *)
Lemma process_observation_keeps (obs : json) :
  keeps Inv Good (process_observation P obs).
Proof.
  unfold process_observation.
  apply keeps_bind; auto.
  { destruct obs; try apply keeps_raise; auto. cbn [subscript].
    destruct (dict_lookup "id" fields); [apply keeps_ret | apply keeps_raise]; auto. }
  intros observation_id. apply keeps_bind; auto.
  { intros fs H. split; [exact H | apply Good_print]. }
  intros _. apply keeps_bind; auto.
  { destruct obs; try apply keeps_raise; auto. cbn [dict_get].
    destruct (dict_lookup "demoddata" fields); apply keeps_ret; auto. }
  intros decoded_data. apply keeps_bind; auto.
  { destruct decoded_data; try apply keeps_raise; try apply keeps_ret; auto. }
  intros payloads. apply keeps_for_each; auto.
Qed.

Lemma handle_response_keeps (r : response) :
  keeps Inv Good (handle_response P r).
Proof.
  unfold handle_response. destruct (negb (Z.eqb (status_code r) 200)).
  - apply keeps_bind; auto.
    { intros fs H. split; [exact H | apply Good_print]. }
    intros _. apply keeps_ret; auto.
  - apply keeps_bind; auto.
    { unfold response_json.
      destruct (json_body r); [apply keeps_ret | apply keeps_raise]; auto. }
    intros observations. apply keeps_bind; auto.
    { destruct observations; try apply keeps_raise; try apply keeps_ret; auto. }
    intros obs_list. apply keeps_for_each; auto.
    intros obs. apply process_observation_keeps.
Qed.

End Run.

Section Effect.

Variable P : platform.

(** All a payload step can do: raise at once; make the directory and save
    nothing; or save one file and curate it. *)
Lemma process_payload_effect (data : json) (fs : filesystem) :
  let o := process_payload P data fs in
  (out_fs o = fs /\ out_trace o = []) \/
  (workdir_free fs /\ out_fs o = made fs /\ Forall is_quiet (out_trace o)) \/
  (exists url, payload_of data url /\ workdir_free fs /\
               status_code (http P url []) = 200 /\
               is_directory (made fs) (saved_as url) = false).
Proof.
  cbv zeta.
  destruct data as [| | | | |items|fields]; try (left; split; reflexivity).
  destruct (dict_lookup "payload_demod" fields) as [image_url|] eqn:Hurl.
  2:{ left. unfold process_payload, bind, subscript. rewrite Hurl.
      split; reflexivity. }
  destruct (fs !! default_save_dir) as [[|blocker]|] eqn:Hdir.
  2:{ left. unfold process_payload, bind, subscript. rewrite Hurl.
      cbn [ret out_res out_fs out_trace].
      rewrite (download_image_blocked P _ _ _ Hdir). split; reflexivity. }
  all: assert (Hfree : workdir_free fs) by (intros d; rewrite Hdir; discriminate).
  all: right.
  all: destruct image_url as [| | | |url| |];
    try (left; split; [exact Hfree|];
         unfold process_payload, bind, subscript;
         rewrite Hurl; cbn [ret out_res out_fs out_trace];
         rewrite (download_image_not_str P _ _ Hfree) by discriminate;
         split; [reflexivity | repeat constructor]).
  all: assert (Hp : payload_of (JObj fields) url) by (exists fields; split; auto).
  all: destruct (Z.eq_dec (status_code (http P url [])) 200) as [Hst|Hst];
    [ destruct (is_directory (made fs) (saved_as url)) eqn:Hd;
      [ left; split; [exact Hfree|];
        rewrite (process_payload_unwritable _ _ _ _ Hp Hfree Hst Hd);
        split; [reflexivity | repeat constructor]
      | right; exists url; auto ]
    | left; split; [exact Hfree|];
      rewrite (process_payload_failed _ _ _ _ Hp Hfree Hst);
      split; [reflexivity | repeat constructor] ].
Qed.

End Effect.

(** ** What a run never does *)

Lemma Forall_app_closed {A} (Q : A -> Prop) (a b : list A) :
  Forall Q a -> Forall Q b -> Forall Q (a ++ b).
Proof. intros Ha Hb. apply Forall_app. split; assumption. Qed.

Lemma stays_inside_quiet (e : event) : is_quiet e -> stays_inside e.
Proof. destruct e as [| | | | |[]]; simpl; auto; contradiction. Qed.

Lemma process_payload_stays_inside (P : platform) (data : json) :
  keeps (fun _ => True) (Forall stays_inside) (process_payload P data).
Proof.
  intros fs _. split; [exact I|].
  destruct (process_payload_effect P data fs)
    as [[_ ->] | [(_ & _ & Hq) | (url & Hp & Hfree & Hst & Hdir)]].
  - constructor.
  - eapply Forall_impl; [exact Hq | apply stays_inside_quiet].
  - destruct (process_payload_saved P data url fs Hp Hfree Hst Hdir)
      as (static & m & _ & Hm & ->).
    pose proof (saved_as_confined url _ Hdir) as Hc.
    cbn [out_trace]. destruct static; repeat constructor; auto.
Qed.

(** X4.  In a run of [get_sstv_images], with any answers from the server
    and any file system, every file that is written, read back or removed
    is a file name directly inside [satnogs_images]: the path is
    [satnogs_images/] followed by a name without slash that is not empty,
    [.] or [..]; and the only directory made is [satnogs_images].  No
    payload URL can make the script write or delete elsewhere. *)
Theorem run_stays_inside_workdir (P : platform) (station_id satellite_id : Z)
    (start_date end_date : option (datetime P)) (limit : Z) (fs : filesystem) :
  Forall stays_inside
    (out_trace (get_sstv_images P station_id satellite_id
                  start_date end_date limit fs)).
Proof.
  rewrite get_sstv_images_unfold. cbn [out_trace]. constructor; [exact I|].
  apply (handle_response_keeps P (fun _ => True) (Forall stays_inside)); auto.
  - apply Forall_app_closed.
  - intros m. repeat constructor.
  - apply process_payload_stays_inside.
Qed.

Lemma process_payload_frame (P : platform) (path : string) (v : option node)
    (data : json) :
  outside path ->
  keeps (fun fs => fs !! path = v) (fun _ => True) (process_payload P data).
Proof.
  intros Hout fs Hv. split; [|exact I].
  destruct (process_payload_effect P data fs)
    as [[-> _] | [(_ & -> & _) | (url & Hp & Hfree & Hst & Hdir)]].
  - exact Hv.
  - unfold made. rewrite lookup_insert_ne; [exact Hv|].
    destruct Hout as [Hne _]. congruence.
  - destruct (process_payload_saved P data url fs Hp Hfree Hst Hdir)
      as (static & m & _ & _ & ->).
    pose proof (outside_saved_as path url Hout) as Hne.
    destruct Hout as [Hd _]. cbn [out_fs]. unfold made.
    destruct static.
    + rewrite lookup_delete_ne, !lookup_insert_ne by congruence. exact Hv.
    + rewrite !lookup_insert_ne by congruence. exact Hv.
Qed.

(** X5.  A run of [get_sstv_images] leaves the rest of the file system as
    it found it: a path that is not [satnogs_images] and does not start
    with [satnogs_images/] holds after the run what it held before,
    however the run ends. *)
Theorem run_leaves_outside_alone (P : platform) (station_id satellite_id : Z)
    (start_date end_date : option (datetime P)) (limit : Z) (fs : filesystem)
    (path : string) :
  outside path ->
  out_fs (get_sstv_images P station_id satellite_id
            start_date end_date limit fs) !! path = fs !! path.
Proof.
  intros Hout. rewrite get_sstv_images_unfold. cbn [out_fs].
  apply (handle_response_keeps P (fun fs' => fs' !! path = fs !! path)
           (fun _ => True)); auto.
  intros data. now apply process_payload_frame.
Qed.

Lemma run_leaves_outside_alone_witness :
  out_fs (Demo.run 200 {[ "notes.txt" := File [Byte.x41] ]}) !! "notes.txt" =
  ({[ "notes.txt" := File [Byte.x41] ]} : filesystem) !! "notes.txt".
Proof.
  assert (Hout : outside "notes.txt").
  { split; [discriminate|]. intros name H. discriminate. }
  exact (run_leaves_outside_alone Demo.up 2433 25544
           (Some "2024-10-01") (Some "2024-10-17") 10 _ "notes.txt" Hout).
Defined.

Lemma not_listing_quiet (e : event) : is_quiet e -> is_listing e = false.
Proof. destruct e as [|url [|]| | | |]; simpl; auto; contradiction. Qed.

Lemma process_payload_no_listing (P : platform) (data : json) :
  keeps (fun _ => True) (Forall (fun e => is_listing e = false))
    (process_payload P data).
Proof.
  intros fs _. split; [exact I|].
  destruct (process_payload_effect P data fs)
    as [[_ ->] | [(_ & _ & Hq) | (url & Hp & Hfree & Hst & Hdir)]].
  - constructor.
  - eapply Forall_impl; [exact Hq | apply not_listing_quiet].
  - destruct (process_payload_saved P data url fs Hp Hfree Hst Hdir)
      as (static & m & _ & Hm & ->).
    cbn [out_trace]. destruct static; repeat constructor.
Qed.

(** X6.  A run of [get_sstv_images] asks the API for the list exactly once:
    the first entry of its trace is the GET to [API_URL] with the query
    parameters, and no later request carries parameters.  There is no retry
    and no second page, whatever the server answers. *)
Theorem run_asks_once (P : platform) (station_id satellite_id : Z)
    (start_date end_date : option (datetime P)) (limit : Z) (fs : filesystem) :
  exists rest,
    out_trace (get_sstv_images P station_id satellite_id
                 start_date end_date limit fs) =
      EGet API_URL
        (query_params P station_id satellite_id start_date end_date limit)
      :: rest /\
    Forall (fun e => is_listing e = false) rest /\
    count is_listing
      (out_trace (get_sstv_images P station_id satellite_id
                    start_date end_date limit fs)) = 1%nat.
Proof.
  rewrite get_sstv_images_unfold. cbn [out_trace]. eexists. split; [reflexivity|].
  assert (Hrest : Forall (fun e => is_listing e = false)
            (out_trace (handle_response P
               (http P API_URL
                  (query_params P station_id satellite_id start_date end_date limit))
               fs))).
  { refine (proj2 (handle_response_keeps P (fun _ => True)
                      (Forall (fun e => is_listing e = false))
                      _ _ _ (process_payload_no_listing P) _ fs I)).
    - constructor.
    - apply Forall_app_closed.
    - intros m. constructor; [reflexivity | constructor]. }
  split; [exact Hrest|].
  unfold count. cbn [List.filter].
  assert (Hq : is_listing
                 (EGet API_URL
                    (query_params P station_id satellite_id start_date end_date limit))
               = true).
  { unfold query_params. destruct start_date, end_date; reflexivity. }
  rewrite Hq. cbn [List.length]. f_equal.
  induction Hrest as [|e t He _ IH]; [reflexivity|].
  cbn [List.filter]. rewrite He. exact IH.
Qed.

Lemma process_payload_blocked (P : platform) (fs0 : filesystem) (blocker : bytes)
    (data : json) :
  fs0 !! default_save_dir = Some (File blocker) ->
  keeps (fun fs => fs = fs0) (Forall (fun e => exists m, e = EPrint m))
    (process_payload P data).
Proof.
  intros Hb fs ->.
  destruct (process_payload_effect P data fs0)
    as [[-> ->] | [(Hfree & _) | (url & _ & Hfree & _)]].
  - split; [reflexivity | constructor].
  - destruct (Hfree blocker Hb).
  - destruct (Hfree blocker Hb).
Qed.

(** X7.  When a regular file is called [satnogs_images], no image is ever
    requested: each payload step stops in [os.makedirs] with
    [FileExistsError], and a whole run leaves the file system exactly as it
    was, its trace being the request for the list followed by console lines
    only. *)
Theorem blocked_workdir_downloads_nothing (P : platform)
    (station_id satellite_id : Z) (start_date end_date : option (datetime P))
    (limit : Z) (fs : filesystem) (blocker : bytes) :
  fs !! default_save_dir = Some (File blocker) ->
  (forall data url,
     payload_of data url ->
     process_payload P data fs =
       Outcome fs [] (Raise (FileExistsError default_save_dir))) /\
  let o := get_sstv_images P station_id satellite_id start_date end_date limit fs in
  out_fs o = fs /\
  exists rest,
    out_trace o =
      EGet API_URL
        (query_params P station_id satellite_id start_date end_date limit)
      :: rest /\
    Forall (fun e => exists m, e = EPrint m) rest.
Proof.
  intros Hb. split.
  - intros data url (fields & -> & Hurl).
    unfold process_payload, bind, subscript. rewrite Hurl.
    cbn [ret out_res out_fs out_trace].
    rewrite (download_image_blocked P _ _ _ Hb). reflexivity.
  - cbv zeta. rewrite get_sstv_images_unfold. cbn [out_fs out_trace].
    assert (Hnil : Forall (fun e => exists m, e = EPrint m) [])
      by constructor.
    assert (Hprint : forall m, Forall (fun e => exists m', e = EPrint m') [EPrint m])
      by (intros m; constructor; [eexists; reflexivity | constructor]).
    destruct (handle_response_keeps P (fun fs' => fs' = fs)
                (Forall (fun e => exists m, e = EPrint m))
                Hnil (Forall_app_closed _) Hprint
                (fun data => process_payload_blocked P fs blocker data Hb)
                (http P API_URL
                   (query_params P station_id satellite_id start_date end_date limit))
                fs eq_refl) as [Hfs Ht].
    split; [exact Hfs|]. eexists. split; [reflexivity | exact Ht].
Qed.

Lemma blocked_workdir_downloads_nothing_witness :
  let fs : filesystem := {[ "satnogs_images" := File [] ]} in
  (forall data url,
     payload_of data url ->
     process_payload Demo.up data fs =
       Outcome fs [] (Raise (FileExistsError default_save_dir))) /\
  let o := get_sstv_images Demo.up 2433 25544
             (Some "2024-10-01") (Some "2024-10-17") 10 fs in
  out_fs o = fs /\
  exists rest,
    out_trace o =
      EGet API_URL
        (query_params Demo.up 2433 25544 (Some "2024-10-01") (Some "2024-10-17") 10)
      :: rest /\
    Forall (fun e => exists m, e = EPrint m) rest.
Proof.
  assert (Hb : ({[ "satnogs_images" := File [] ]} : filesystem)
                 !! default_save_dir = Some (File []))
    by (vm_compute; reflexivity).
  exact (blocked_workdir_downloads_nothing Demo.up 2433 25544
           (Some "2024-10-01") (Some "2024-10-17") 10 _ [] Hb).
Defined.

(** ** Answers of the server *)

(** X8.  An answer 200 whose body is the empty array ends the run at once
    and normally: the trace is the single request, nothing is downloaded
    and the file system is untouched. *)
Theorem empty_list_run (P : platform) (station_id satellite_id : Z)
    (start_date end_date : option (datetime P)) (limit : Z) (fs : filesystem)
    (r : response) :
  r = http P API_URL
        (query_params P station_id satellite_id start_date end_date limit) ->
  status_code r = 200 ->
  json_body r = Some (JArr []) ->
  get_sstv_images P station_id satellite_id start_date end_date limit fs =
    Outcome fs
      [EGet API_URL
         (query_params P station_id satellite_id start_date end_date limit)]
      (Ok tt).
Proof.
  intros -> Hst Hbody. rewrite get_sstv_images_unfold. cbv zeta.
  unfold handle_response, response_json. rewrite Hst, Hbody. reflexivity.
Qed.

Lemma empty_list_run_witness :
  get_sstv_images (Replies.always (Response 200 [] (Some (JArr []))))
    2433 25544 None None 10 ∅ =
    Outcome ∅
      [EGet API_URL
         (query_params (Replies.always (Response 200 [] (Some (JArr []))))
            2433 25544 None None 10)]
      (Ok tt).
Proof.
  exact (empty_list_run (Replies.always (Response 200 [] (Some (JArr []))))
           2433 25544 None None 10 ∅ (Response 200 [] (Some (JArr [])))
           eq_refl eq_refl eq_refl).
Defined.

(** X9.  An answer 200 whose body is not a JSON array never leads to a
    download and never touches the file system.  A body that is not JSON
    raises [JSONDecodeError]; [null], a boolean or a number is not iterable
    and raises [TypeError]; a non-empty string or object raises [TypeError]
    at its first character or key, which has no ["id"]; only the empty
    string and the empty object let the run end normally. *)
Theorem non_array_answer_run (P : platform) (station_id satellite_id : Z)
    (start_date end_date : option (datetime P)) (limit : Z) (fs : filesystem)
    (r : response) :
  r = http P API_URL
        (query_params P station_id satellite_id start_date end_date limit) ->
  status_code r = 200 ->
  (forall items, json_body r <> Some (JArr items)) ->
  get_sstv_images P station_id satellite_id start_date end_date limit fs =
    Outcome fs
      [EGet API_URL
         (query_params P station_id satellite_id start_date end_date limit)]
      match json_body r with
      | None => Raise JSONDecodeError
      | Some (JStr "") | Some (JObj []) => Ok tt
      | Some _ => Raise TypeError
      end.
Proof.
  intros -> Hst Hna. rewrite get_sstv_images_unfold. cbv zeta.
  unfold handle_response, response_json. rewrite Hst.
  cbn [Z.eqb negb Pos.eqb].
  destruct (json_body (http P API_URL _)) as [[| | | |s|items|fields]|];
    try reflexivity.
  - destruct s as [|c s]; reflexivity.
  - destruct (Hna items eq_refl).
  - destruct fields as [|[k v] fields]; reflexivity.
Qed.

Lemma non_array_answer_run_witness :
  get_sstv_images
    (Replies.always (Response 200 [] (Some (JObj [("detail", JStr "Not found.")]))))
    2433 25544 None None 10 ∅ =
    Outcome ∅
      [EGet API_URL
         (query_params
            (Replies.always
               (Response 200 [] (Some (JObj [("detail", JStr "Not found.")]))))
            2433 25544 None None 10)]
      (Raise TypeError).
Proof.
  assert (Hna : forall items,
             json_body (Response 200 [] (Some (JObj [("detail", JStr "Not found.")])))
             <> Some (JArr items))
    by (intros items H; discriminate).
  exact (non_array_answer_run
           (Replies.always
              (Response 200 [] (Some (JObj [("detail", JStr "Not found.")]))))
           2433 25544 None None 10 ∅ _ eq_refl eq_refl Hna).
Defined.

(** ** Exceptions end the run *)

Lemma for_each_app {A} (xs ys : list A) (body : A -> M unit) (fs : filesystem) :
  for_each (xs ++ ys) body fs =
    bind (for_each xs body) (fun _ => for_each ys body) fs.
Proof.
  revert fs. induction xs as [|x xs IH]; intros fs.
  - cbn [app for_each]. unfold bind, ret. cbn [out_res out_fs out_trace app].
    destruct (for_each ys body fs); reflexivity.
  - cbn [app for_each]. unfold bind. cbv zeta.
    destruct (body x fs) as [fs1 t1 [[]|e]]; cbn [out_res out_fs out_trace].
    + rewrite IH. unfold bind. cbv zeta.
      destruct (for_each xs body fs1) as [fs2 t2 [[]|e]];
        cbn [out_res out_fs out_trace]; [|reflexivity].
      rewrite app_assoc. reflexivity.
    + reflexivity.
Qed.

(** The loop ends where the body raises: what comes after is not run. *)
Lemma for_each_stops {A} (xs zs : list A) (y : A) (body : A -> M unit)
    (fs : filesystem) (e : exn) :
  out_res (for_each xs body fs) = Ok tt ->
  body y (out_fs (for_each xs body fs)) =
    Outcome (out_fs (for_each xs body fs)) [] (Raise e) ->
  for_each (xs ++ y :: zs) body fs =
    Outcome (out_fs (for_each xs body fs)) (out_trace (for_each xs body fs))
      (Raise e).
Proof.
  intros Hok Hy. rewrite for_each_app. unfold bind. cbv zeta. rewrite Hok.
  cbn [for_each]. unfold bind. cbv zeta. rewrite Hy.
  cbn [out_res out_fs out_trace]. rewrite app_nil_r. reflexivity.
Qed.

(** An answer 200 with an array: the loop over its elements. *)
Lemma handle_response_array (P : platform) (r : response) (obs_list : list json)
    (fs : filesystem) :
  status_code r = 200 ->
  json_body r = Some (JArr obs_list) ->
  handle_response P r fs = for_each obs_list (process_observation P) fs.
Proof.
  intros Hst Hbody. unfold handle_response, response_json.
  rewrite Hst, Hbody. cbn [Z.eqb Pos.eqb negb].
  unfold bind, py_iter, ret. cbn [out_res out_fs out_trace app].
  destruct (for_each obs_list (process_observation P) fs); reflexivity.
Qed.

(** A record without identifier raises before anything is printed. *)
Lemma process_observation_no_id (P : platform) (obs : json) (fs : filesystem) :
  (forall fields, obs = JObj fields -> dict_lookup "id" fields = None) ->
  process_observation P obs fs =
    Outcome fs []
      (Raise match obs with JObj _ => KeyError "id" | _ => TypeError end).
Proof.
  intros Hid. destruct obs as [| | | | | |fields]; try reflexivity.
  unfold process_observation, bind, subscript.
  rewrite (Hid fields eq_refl). reflexivity.
Qed.

(** X10.  An exception in one observation ends the whole run, unlike a
    failed download.  When the array of the answer holds, after records that
    are processed normally, an element that is not a record with an ["id"],
    the run raises there ([KeyError] for a dict without the key,
    [TypeError] for anything that is not a dict): its effects are those of
    the records before, and the records after are never looked at. *)
Theorem malformed_record_stops_run (P : platform) (station_id satellite_id : Z)
    (start_date end_date : option (datetime P)) (limit : Z) (fs : filesystem)
    (r : response) (before after : list json) (bad : json) :
  r = http P API_URL
        (query_params P station_id satellite_id start_date end_date limit) ->
  status_code r = 200 ->
  json_body r = Some (JArr (before ++ bad :: after)) ->
  out_res (for_each before (process_observation P) fs) = Ok tt ->
  (forall fields, bad = JObj fields -> dict_lookup "id" fields = None) ->
  get_sstv_images P station_id satellite_id start_date end_date limit fs =
    Outcome
      (out_fs (for_each before (process_observation P) fs))
      (EGet API_URL
         (query_params P station_id satellite_id start_date end_date limit)
       :: out_trace (for_each before (process_observation P) fs))
      (Raise match bad with JObj _ => KeyError "id" | _ => TypeError end).
Proof.
  intros -> Hst Hbody Hok Hbad. rewrite get_sstv_images_unfold. cbv zeta.
  rewrite (handle_response_array P _ _ fs Hst Hbody).
  rewrite (for_each_stops _ _ _ _ _ _ Hok (process_observation_no_id P bad _ Hbad)).
  reflexivity.
Qed.

Lemma malformed_record_stops_run_witness :
  let r := Response 200 []
             (Some (JArr ([JObj [("id", JInt 1)]] ++
                          JObj [("demoddata", JArr [Demo.payload Demo.url_a])]
                          :: [JObj [("id", JInt 3)]]))) in
  get_sstv_images (Replies.always r) 2433 25544 None None 10 ∅ =
    Outcome
      (out_fs (for_each [JObj [("id", JInt 1)]]
                 (process_observation (Replies.always r)) ∅))
      (EGet API_URL (query_params (Replies.always r) 2433 25544 None None 10)
       :: out_trace (for_each [JObj [("id", JInt 1)]]
                       (process_observation (Replies.always r)) ∅))
      (Raise (KeyError "id")).
Proof.
  assert (Hbad : forall fields,
             JObj [("demoddata", JArr [Demo.payload Demo.url_a])] = JObj fields ->
             dict_lookup "id" fields = None)
    by (intros fields [= <-]; reflexivity).
  exact (malformed_record_stops_run
           (Replies.always
              (Response 200 []
                 (Some (JArr ([JObj [("id", JInt 1)]] ++
                              JObj [("demoddata", JArr [Demo.payload Demo.url_a])]
                              :: [JObj [("id", JInt 3)]])))))
           2433 25544 None None 10 ∅ _
           [JObj [("id", JInt 1)]] [JObj [("id", JInt 3)]]
           (JObj [("demoddata", JArr [Demo.payload Demo.url_a])])
           eq_refl eq_refl eq_refl eq_refl Hbad).
Defined.

(** ** A whole run on a well-formed answer *)

Section WholeRun.

Variable P : platform.

Lemma process_payload_no_processing (data : json) (fs : filesystem) :
  count is_processing (out_trace (process_payload P data fs)) = 0%nat.
Proof.
  destruct (process_payload_effect P data fs)
    as [[_ ->] | [(_ & _ & Hq) | (url & Hp & Hfree & Hst & Hdir)]].
  - reflexivity.
  - unfold count. induction Hq as [|e t He _ IHq]; [reflexivity|].
    cbn [List.filter]. destruct e as [| | | | |[]]; try destruct He; exact IHq.
  - destruct (process_payload_saved P data url fs Hp Hfree Hst Hdir)
      as (static & m & _ & Hm & ->).
    cbn [out_trace]. destruct m; try discriminate; destruct static; reflexivity.
Qed.

Lemma ready_same_dirs (urls : list string) (fs fs' : filesystem) :
  ready P urls fs ->
  workdir_free fs' ->
  (forall path, is_directory (made fs') path = is_directory (made fs) path) ->
  ready P urls fs'.
Proof.
  intros [_ Hdir] Hfree Hsame. split; [exact Hfree|].
  intros url Hin Hs. rewrite Hsame. now apply Hdir.
Qed.

Lemma for_each_payload_ready (payloads : list json) (urls : list string) :
  Forall2 payload_of payloads urls ->
  forall fs : filesystem,
  ready P urls fs ->
  let o := for_each payloads (process_payload P) fs in
  out_res o = Ok tt /\
  workdir_free (out_fs o) /\
  (forall path, is_directory (made (out_fs o)) path = is_directory (made fs) path) /\
  count is_processing (out_trace o) = 0%nat /\
  count is_download (out_trace o) = List.length urls /\
  count is_classified (out_trace o) = List.length (List.filter (served P) urls) /\
  count is_download_failure (out_trace o) =
    List.length (List.filter (fun url => negb (served P url)) urls).
Proof.
  induction 1 as [|data url payloads urls Hp _ IH]; intros fs [Hfree Hdir].
  - cbn. repeat split; auto.
  - destruct (process_payload_step P data url fs Hp Hfree)
      as (Hres & Hfree' & Hsame & Hd & Hc & Hf).
    { apply Hdir. now left. }
    pose proof (process_payload_no_processing data fs) as Hproc.
    destruct (IH (out_fs (process_payload P data fs)))
      as (IHres & IHfree & IHsame & IHp & IHd & IHc & IHf).
    { split; [exact Hfree'|]. intros url' Hin Hs. rewrite Hsame.
      apply Hdir; [now right | exact Hs]. }
    cbn [for_each]. unfold bind. cbv zeta. rewrite Hres.
    cbn [out_res out_fs out_trace].
    rewrite !count_app, Hproc, Hd, Hc, Hf, IHp, IHd, IHc, IHf. cbn [List.filter].
    split; [exact IHres|]. split; [exact IHfree|].
    split; [intros path; rewrite IHsame; apply Hsame|].
    destruct (served P url); cbn [negb List.length]; repeat split; lia.
Qed.

Lemma process_observation_ready (obs : json) (urls : list string) (fs : filesystem) :
  record_of obs urls ->
  ready P urls fs ->
  let o := process_observation P obs fs in
  out_res o = Ok tt /\
  workdir_free (out_fs o) /\
  (forall path, is_directory (made (out_fs o)) path = is_directory (made fs) path) /\
  count is_processing (out_trace o) = 1%nat /\
  count is_download (out_trace o) = List.length urls /\
  count is_classified (out_trace o) = List.length (List.filter (served P) urls) /\
  count is_download_failure (out_trace o) =
    List.length (List.filter (fun url => negb (served P url)) urls).
Proof.
  intros (fields & observation_id & -> & Hid & Hdata) Hready. cbv zeta.
  rewrite (process_observation_record P fields observation_id fs Hid).
  destruct Hdata as [(payloads & Hdata & Hps) | [Hdata ->]]; rewrite Hdata;
    cbn [default from_option id py_iter ret out_res out_fs out_trace].
  - destruct (for_each_payload_ready payloads urls Hps fs Hready)
      as (Hres & Hfree & Hsame & Hp & Hd & Hc & Hf).
    change (EPrint (MsgProcessing observation_id) ::
            out_trace (for_each payloads (process_payload P) fs))
      with ([EPrint (MsgProcessing observation_id)] ++
            out_trace (for_each payloads (process_payload P) fs))%list.
    rewrite !count_app, Hp, Hd, Hc, Hf. repeat split; auto.
  - destruct Hready as [Hfree _]. cbn. repeat split; auto.
Qed.

Lemma for_each_observation_ready (obs_list : list json) (urlss : list (list string)) :
  Forall2 record_of obs_list urlss ->
  forall fs : filesystem,
  ready P (List.concat urlss) fs ->
  let o := for_each obs_list (process_observation P) fs in
  out_res o = Ok tt /\
  count is_processing (out_trace o) = List.length obs_list /\
  count is_download (out_trace o) = List.length (List.concat urlss) /\
  count is_classified (out_trace o) =
    List.length (List.filter (served P) (List.concat urlss)) /\
  count is_download_failure (out_trace o) =
    List.length (List.filter (fun url => negb (served P url)) (List.concat urlss)).
Proof.
  induction 1 as [|obs urls obs_list urlss Hrec _ IH]; intros fs Hready.
  - cbn. repeat split; auto.
  - cbn [List.concat] in *.
    assert (Hr1 : ready P urls fs).
    { destruct Hready as [Hfree Hdir]. split; [exact Hfree|].
      intros url Hin. apply Hdir. apply List.in_or_app. now left. }
    destruct (process_observation_ready obs urls fs Hrec Hr1)
      as (Hres & Hfree & Hsame & Hp & Hd & Hc & Hf).
    destruct (IH (out_fs (process_observation P obs fs)))
      as (IHres & IHp & IHd & IHc & IHf).
    { apply (ready_same_dirs _ fs); auto.
      destruct Hready as [Hfree0 Hdir]. split; [exact Hfree0|].
      intros url Hin. apply Hdir. apply List.in_or_app. now right. }
    cbn [for_each]. unfold bind. cbv zeta. rewrite Hres.
    cbn [out_res out_fs out_trace].
    rewrite !count_app, Hp, Hd, Hc, Hf, IHp, IHd, IHc, IHf.
    rewrite !List.filter_app, !List.length_app. cbn [List.length].
    repeat split; auto.
Qed.

End WholeRun.

Lemma count_none (f : event -> bool) (t : list event) :
  Forall (fun e => f e = false) t -> count f t = 0%nat.
Proof.
  unfold count. induction 1 as [|e t He _ IH]; [reflexivity|].
  cbn [List.filter]. rewrite He. exact IH.
Qed.

(** X11.  A run on a well-formed answer.  When the server answers the list
    request with 200 and an array of records, each with an ["id"] and a list
    of payload records or no [demoddata] at all, when the working directory
    can be made and every image the server has can be saved, the run ends
    normally, announces every observation once, requests every payload once
    in all, classifies once each image the server had, and reports once each
    image it had not. *)
Theorem well_formed_run (P : platform) (station_id satellite_id : Z)
    (start_date end_date : option (datetime P)) (limit : Z) (fs : filesystem)
    (r : response) (obs_list : list json) (urlss : list (list string)) :
  r = http P API_URL
        (query_params P station_id satellite_id start_date end_date limit) ->
  status_code r = 200 ->
  json_body r = Some (JArr obs_list) ->
  Forall2 record_of obs_list urlss ->
  ready P (List.concat urlss) fs ->
  exists t,
    get_sstv_images P station_id satellite_id start_date end_date limit fs =
      Outcome
        (out_fs (get_sstv_images P station_id satellite_id
                   start_date end_date limit fs))
        t (Ok tt) /\
    count is_listing t = 1%nat /\
    count is_processing t = List.length obs_list /\
    count is_download t = List.length (List.concat urlss) /\
    count is_classified t =
      List.length (List.filter (served P) (List.concat urlss)) /\
    count is_download_failure t =
      List.length (List.filter (fun url => negb (served P url)) (List.concat urlss)).
Proof.
  intros -> Hst Hbody Hrec Hready.
  destruct (for_each_observation_ready P obs_list urlss Hrec fs Hready)
    as (Hres & Hp & Hd & Hc & Hf).
  rewrite get_sstv_images_unfold. cbv zeta.
  rewrite (handle_response_array P _ _ fs Hst Hbody).
  cbn [out_fs]. rewrite Hres. eexists. split; [reflexivity|].
  change (EGet API_URL
            (query_params P station_id satellite_id start_date end_date limit)
          :: out_trace (for_each obs_list (process_observation P) fs))
    with ([EGet API_URL
             (query_params P station_id satellite_id start_date end_date limit)]
          ++ out_trace (for_each obs_list (process_observation P) fs))%list.
  rewrite !count_app, Hp, Hd, Hc, Hf.
  assert (Hq : exists kv q,
             query_params P station_id satellite_id start_date end_date limit
             = kv :: q).
  { unfold query_params. destruct start_date, end_date; cbn; eauto. }
  destruct Hq as (kv & q & ->).
  split.
  - assert (Hl : count is_listing
                   (out_trace (for_each obs_list (process_observation P) fs)) = 0%nat).
    { assert (Hall : Forall (fun e => is_listing e = false)
                (out_trace (for_each obs_list (process_observation P) fs))).
      { refine (proj2 (keeps_for_each (fun _ => True)
                         (Forall (fun e => is_listing e = false))
                         _ _ (process_observation P) obs_list _ fs I)).
        - constructor.
        - apply Forall_app_closed.
        - intros obs.
          refine (process_observation_keeps P (fun _ => True)
                    (Forall (fun e => is_listing e = false))
                    _ _ _ (process_payload_no_listing P) obs).
          + constructor.
          + apply Forall_app_closed.
          + intros m. constructor; [reflexivity | constructor]. }
      now apply count_none. }
    rewrite Hl. reflexivity.
  - repeat split; reflexivity.
Qed.

Lemma well_formed_run_witness :
  let urlss := [[Demo.url_a; Demo.url_b; Demo.url_c]; []; []; [Demo.url_a']] in
  exists t,
    Demo.run 200 ∅ = Outcome (out_fs (Demo.run 200 ∅)) t (Ok tt) /\
    count is_listing t = 1%nat /\
    count is_processing t = 4%nat /\
    count is_download t = List.length (List.concat urlss) /\
    count is_classified t =
      List.length (List.filter (served Demo.up) (List.concat urlss)) /\
    count is_download_failure t =
      List.length
        (List.filter (fun url => negb (served Demo.up url)) (List.concat urlss)).
Proof.
  assert (Hrec : Forall2 record_of
            [ JObj [("id", JInt 1);
                    ("demoddata", JArr [Demo.payload Demo.url_a;
                                        Demo.payload Demo.url_b;
                                        Demo.payload Demo.url_c])];
              JObj [("id", JInt 2); ("demoddata", JArr [])];
              JObj [("id", JInt 3)];
              JObj [("id", JInt 4); ("demoddata", JArr [Demo.payload Demo.url_a'])] ]
            [[Demo.url_a; Demo.url_b; Demo.url_c]; []; []; [Demo.url_a']]).
  { repeat constructor.
    - eexists _, _. split; [reflexivity|]. split; [reflexivity|]. left.
      eexists. split; [reflexivity|].
      repeat constructor; eexists; (split; reflexivity).
    - eexists _, _. split; [reflexivity|]. split; [reflexivity|]. left.
      eexists. split; [reflexivity | constructor].
    - eexists _, _. split; [reflexivity|]. split; [reflexivity|]. right.
      split; reflexivity.
    - eexists _, _. split; [reflexivity|]. split; [reflexivity|]. left.
      eexists. split; [reflexivity|].
      repeat constructor; eexists; (split; reflexivity). }
  assert (Hready : ready Demo.up
            (List.concat [[Demo.url_a; Demo.url_b; Demo.url_c]; []; []; [Demo.url_a']])
            ∅).
  { split.
    - intros data H. rewrite lookup_empty in H. discriminate.
    - intros url [<-|[<-|[<-|[<-|[]]]]] _; vm_compute; reflexivity. }
  exact (well_formed_run Demo.up 2433 25544
           (Some "2024-10-01") (Some "2024-10-17") 10 ∅
           _ _ _ eq_refl eq_refl eq_refl Hrec Hready).
Defined.

(** ** One payload, end to end *)

(** X12.  What a payload step leaves on disk when the image is served and
    can be saved: the step ends normally and the save path holds the
    downloaded bytes exactly when they decode to an image whose Laplacian
    variance is at most 20000; when they do not decode, or the variance is
    above 20000, the path holds nothing, whatever it held before.  The
    working directory exists and every other path is as before. *)
Theorem payload_kept_iff_not_above (P : platform) (data : json) (url : string)
    (fs : filesystem) :
  payload_of data url ->
  workdir_free fs ->
  served P url = true ->
  is_directory (made fs) (saved_as url) = false ->
  let body := content (http P url []) in
  let o := process_payload P data fs in
  out_res o = Ok tt /\
  out_fs o !! saved_as url =
    match imdecode P body with
    | Some img =>
        if Qle_bool (laplacian_variance P img) default_threshold
        then Some (File body) else None
    | None => None
    end /\
  out_fs o !! default_save_dir = Some Dir /\
  (forall other, other <> saved_as url -> other <> default_save_dir ->
                 out_fs o !! other = fs !! other).
Proof.
  intros Hp Hfree Hs Hdir body o. subst o.
  assert (Hst : status_code (http P url []) = 200)
    by (unfold served in Hs; now apply Z.eqb_eq).
  destruct (process_payload_saved P data url fs Hp Hfree Hst Hdir)
    as (static & m & Hstatic & _ & ->).
  fold body in Hstatic |- *. fold (made fs) in Hstatic |- *.
  rewrite is_static_image_cases, lookup_insert_eq in Hstatic.
  pose proof (saved_as_not_dir url) as Hne.
  cbn [out_res out_fs]. split; [reflexivity|].
  assert (Hval : static =
            match imdecode P body with
            | Some img => negb (Qle_bool (laplacian_variance P img) default_threshold)
            | None => true
            end).
  { destruct (imdecode P body); injection Hstatic as _ Hb; now rewrite Hb. }
  split; [|split].
  - rewrite Hval. destruct (imdecode P body) as [img|].
    + destruct (Qle_bool (laplacian_variance P img) default_threshold); cbn [negb].
      * apply lookup_insert_eq.
      * apply lookup_delete_eq.
    + apply lookup_delete_eq.
  - destruct static.
    + rewrite lookup_delete_ne, lookup_insert_ne by congruence.
      apply lookup_insert_eq.
    + rewrite lookup_insert_ne by congruence. apply lookup_insert_eq.
  - intros other H1 H2. unfold made. destruct static.
    + rewrite lookup_delete_ne, !lookup_insert_ne by congruence. reflexivity.
    + rewrite !lookup_insert_ne by congruence. reflexivity.
Qed.

Lemma payload_kept_iff_not_above_witness :
  let fs : filesystem := {[ "satnogs_images/a.png" := File [Byte.x0b] ]} in
  let body := content (http Demo.up Demo.url_a' []) in
  let o := process_payload Demo.up (Demo.payload Demo.url_a') fs in
  out_res o = Ok tt /\
  out_fs o !! saved_as Demo.url_a' =
    match imdecode Demo.up body with
    | Some img =>
        if Qle_bool (laplacian_variance Demo.up img) default_threshold
        then Some (File body) else None
    | None => None
    end /\
  out_fs o !! default_save_dir = Some Dir /\
  (forall other, other <> saved_as Demo.url_a' -> other <> default_save_dir ->
                 out_fs o !! other = fs !! other).
Proof.
  assert (Hp : payload_of (Demo.payload Demo.url_a') Demo.url_a')
    by (eexists; split; reflexivity).
  assert (Hfree : workdir_free {[ "satnogs_images/a.png" := File [Byte.x0b] ]})
    by (intros data H; vm_compute in H; discriminate).
  assert (Hs : served Demo.up Demo.url_a' = true) by (vm_compute; reflexivity).
  assert (Hdir : is_directory (made {[ "satnogs_images/a.png" := File [Byte.x0b] ]})
                   (saved_as Demo.url_a') = false)
    by (vm_compute; reflexivity).
  exact (payload_kept_iff_not_above Demo.up (Demo.payload Demo.url_a')
           Demo.url_a' _ Hp Hfree Hs Hdir).
Defined.

(** ** Edges of [download_image] *)

(** X13.  A URL that ends in a slash has an empty last piece, so the save
    path is the working directory itself: with an answer 200 the request is
    made, [open] raises [IsADirectoryError], nothing is written and no path
    is returned. *)
Theorem trailing_slash_url_raises (P : platform) (url : string) (fs : filesystem) :
  endswith "/" url = true ->
  workdir_free fs ->
  served P url = true ->
  download_image P (JStr url) default_save_dir fs =
    Outcome (made fs) [EMakedirs default_save_dir; EGet url []]
      (Raise (IsADirectoryError "satnogs_images/")).
Proof.
  intros Hend Hfree Hs.
  destruct (endswith_app _ _ Hend) as [pre ->].
  assert (Hp : saved_as (pre ++ String "/" "") = "satnogs_images/").
  { apply (saved_as_eq _ ""). now apply split_last_prefixed. }
  rewrite (download_image_cases P _ fs Hfree). unfold served in Hs.
  rewrite Hs, Hp. fold (made fs).
  assert (Hd : is_directory (made fs) "satnogs_images/" = true).
  { unfold is_directory. destruct (made fs !! "satnogs_images/") as [[|]|]; reflexivity. }
  rewrite Hd. reflexivity.
Qed.

Lemma trailing_slash_url_raises_witness :
  download_image (Replies.always (Response 200 [Byte.x0a] None))
    (JStr "https://network.satnogs.org/media/1/") default_save_dir ∅ =
    Outcome (made ∅)
      [EMakedirs default_save_dir; EGet "https://network.satnogs.org/media/1/" []]
      (Raise (IsADirectoryError "satnogs_images/")).
Proof.
  assert (Hfree : workdir_free ∅)
    by (intros data H; rewrite lookup_empty in H; discriminate).
  exact (trailing_slash_url_raises (Replies.always (Response 200 [Byte.x0a] None))
           "https://network.satnogs.org/media/1/" ∅ eq_refl Hfree eq_refl).
Defined.

(** X14.  Downloading the same URL again changes nothing: once an image has
    been saved, a second call of [download_image] on that URL has the same
    outcome as the first, file system, trace and returned path. *)
Theorem download_image_again (P : platform) (url : string) (fs : filesystem) :
  workdir_free fs ->
  served P url = true ->
  is_directory (made fs) (saved_as url) = false ->
  download_image P (JStr url) default_save_dir
    (out_fs (download_image P (JStr url) default_save_dir fs)) =
  download_image P (JStr url) default_save_dir fs.
Proof.
  intros Hfree Hs Hdir. unfold served in Hs.
  rewrite (download_image_cases P url fs Hfree). fold (made fs).
  rewrite Hs, Hdir. cbn [out_fs].
  rewrite (download_image_cases P url).
  2:{ apply workdir_free_insert_saved, workdir_free_made. }
  fold (made (<[saved_as url := File (content (http P url []))]> (made fs))).
  rewrite Hs, made_insert_saved.
  rewrite (is_directory_insert_file _ _ _ _ Hdir), Hdir.
  rewrite insert_insert_eq. reflexivity.
Qed.

Lemma download_image_again_witness :
  download_image Demo.up (JStr Demo.url_a) default_save_dir
    (out_fs (download_image Demo.up (JStr Demo.url_a) default_save_dir ∅)) =
  download_image Demo.up (JStr Demo.url_a) default_save_dir ∅.
Proof.
  assert (Hfree : workdir_free ∅)
    by (intros data H; rewrite lookup_empty in H; discriminate).
  assert (Hs : served Demo.up Demo.url_a = true) by (vm_compute; reflexivity).
  assert (Hdir : is_directory (made ∅) (saved_as Demo.url_a) = false)
    by (vm_compute; reflexivity).
  exact (download_image_again Demo.up Demo.url_a ∅ Hfree Hs Hdir).
Defined.

(** ** The query *)

Lemma dict_set_keys (key : string) (v : pval) (d : params) (k : string) :
  In k (map fst (dict_set key v d)) -> k = key \/ In k (map fst d).
Proof.
  induction d as [|[k0 w0] d IH]; cbn [dict_set map fst In].
  - intros [<-|[]]. now left.
  - destruct (String.eqb k0 key) eqn:E; cbn [map fst In]; intros Hk.
    + right. exact Hk.
    + destruct Hk as [<-|Hk]; [right; now left|].
      destruct (IH Hk); auto.
Qed.

(** X15.  Assigning a key of the [params] dict and reading it back: the key
    then holds the new value, every other key holds what it held, and keys
    that were distinct stay distinct; the dict grows by one entry exactly
    when the key was absent. *)
Theorem dict_set_lookup (key : string) (v : pval) (d : params) :
  params_lookup key (dict_set key v d) = Some v /\
  (forall other, other <> key ->
     params_lookup other (dict_set key v d) = params_lookup other d) /\
  (NoDup (map fst d) -> NoDup (map fst (dict_set key v d))) /\
  List.length (dict_set key v d) =
    (match params_lookup key d with
     | Some _ => List.length d
     | None => S (List.length d)
     end).
Proof.
  induction d as [|[k w] d (IH1 & IH2 & IH3 & IH4)];
    cbn [dict_set params_lookup map fst List.length].
  - rewrite String.eqb_refl. repeat split; auto.
    + intros other Hne. destruct (String.eqb key other) eqn:E; [|reflexivity].
      apply String.eqb_eq in E. congruence.
    + intros _. apply NoDup_singleton.
  - destruct (String.eqb k key) eqn:E; cbn [params_lookup map fst List.length].
    + rewrite E. apply String.eqb_eq in E. subst k. repeat split; auto.
      intros other Hne. destruct (String.eqb key other) eqn:E'; [|reflexivity].
      apply String.eqb_eq in E'. congruence.
    + rewrite E. split; [exact IH1|]. split; [|split].
      * intros other Hne. destruct (String.eqb k other); [reflexivity|].
        now apply IH2.
      * intros Hnd. apply NoDup_cons in Hnd as [Hnin Hnd].
        apply NoDup_cons. split; [|now apply IH3].
        intros Hin. apply list_elem_of_In in Hin.
        destruct (dict_set_keys _ _ _ _ Hin) as [->|Hin'].
        -- rewrite String.eqb_refl in E. discriminate.
        -- apply Hnin. now apply list_elem_of_In.
      * rewrite IH4. destruct (params_lookup key d); reflexivity.
Qed.

(** X16.  The query of [get_sstv_images] always asks for good observations
    in SSTV mode of the given satellite and station with the given limit;
    it carries [start] exactly when a start date is given and [end] exactly
    when an end date is given, each in ISO format, and no key twice. *)
Theorem query_params_fields (P : platform) (station_id satellite_id : Z)
    (start_date end_date : option (datetime P)) (limit : Z) :
  let query := query_params P station_id satellite_id start_date end_date limit in
  params_lookup "norad_cat_id" query = Some (PInt satellite_id) /\
  params_lookup "ground_station" query = Some (PInt station_id) /\
  params_lookup "status" query = Some (PStr "good") /\
  params_lookup "limit" query = Some (PInt limit) /\
  params_lookup "transmitter_mode" query = Some (PStr "SSTV") /\
  params_lookup "start" query =
    option_map (fun d => PStr (isoformat P d)) start_date /\
  params_lookup "end" query =
    option_map (fun d => PStr (isoformat P d)) end_date /\
  NoDup (map fst query).
Proof.
  destruct start_date, end_date; cbn; repeat split;
    apply (bool_decide_unpack _); vm_compute; reflexivity.
Qed.

(** ** Malformed payload records *)

(** X17.  A payload record that has no ["payload_demod"] raises [KeyError]
    (a payload that is not a dict, [TypeError]) before anything is done: no
    directory, no request.  A record whose ["payload_demod"] is not a
    string gets as far as [os.makedirs]: the working directory is made, then
    [split] raises [AttributeError], and no request is sent. *)
Theorem malformed_payload_raises (P : platform) (data : json) (fs : filesystem) :
  workdir_free fs ->
  (forall url, ~ payload_of data url) ->
  process_payload P data fs =
    match data with
    | JObj fields =>
        match dict_lookup "payload_demod" fields with
        | Some _ =>
            Outcome (made fs) [EMakedirs default_save_dir] (Raise AttributeError)
        | None => Outcome fs [] (Raise (KeyError "payload_demod"))
        end
    | _ => Outcome fs [] (Raise TypeError)
    end.
Proof.
  intros Hfree Hnp. destruct data as [| | | | | |fields]; try reflexivity.
  unfold process_payload, bind, subscript.
  destruct (dict_lookup "payload_demod" fields) as [image_url|] eqn:Hurl;
    [|reflexivity].
  cbn [ret out_res out_fs out_trace].
  rewrite (download_image_not_str P image_url fs Hfree); [reflexivity|].
  intros url ->. apply (Hnp url). exists fields. split; [reflexivity | exact Hurl].
Qed.

Lemma malformed_payload_raises_witness :
  process_payload Demo.up (JObj [("payload_demod", JNull)]) ∅ =
    Outcome (made ∅) [EMakedirs default_save_dir] (Raise AttributeError).
Proof.
  assert (Hfree : workdir_free ∅)
    by (intros data H; rewrite lookup_empty in H; discriminate).
  assert (Hnp : forall url, ~ payload_of (JObj [("payload_demod", JNull)]) url).
  { intros url (fields & [= <-] & H). discriminate. }
  exact (malformed_payload_raises Demo.up (JObj [("payload_demod", JNull)]) ∅
           Hfree Hnp).
Defined.
